(** * go-rat/cas: the service-ticket validator and the REST basic-auth handler

    A shallow embedding of [service_validate.go] and [rest_handler.go].

    Go values are modelled as follows.
    - [string] is a sequence of bytes: Rocq's [string] (8-bit [ascii]).
    - [int] is [Z]; the only arithmetic in these files is [len(body)-1] on a
      length, which cannot leave the 64-bit range.
    - A function returning [(T, error)] returns a pair whose second component
      is [option error] ([None] is Go's [nil] error); a [*T] that may be [nil]
      is an [option T].
    - Run-time panics (slice bounds, nil dereference) are an explicit outcome
      of every computation, see [exec].
    - [*url.URL] values live in a store of URL structs and are addressed by
      pointers, so that the assignment [u.RawQuery = ...] is a store update.
    - Calls that leave the package (the HTTP transport, the XML parser, the
      REST client, the wrapped handler) are recorded in a call log carried by
      the state, so that "is called exactly once" and "is never called" are
      statements about that log.
    - [slog.Info] only writes to the logger and is not modelled. *)

From Stdlib Require Import ZArith Ascii String.
From stdpp Require Import base option list strings sorting gmap.

Local Open Scope Z_scope.

(** ** Go strings, errors and panics *)

Module Go.

(** The byte 0x0A, written [\n] in the Go sources. *)
Definition nl : string := String "010"%char EmptyString.

(** The byte 0x22, the double quote that the Go sources escape in string literals. *)
Definition dquote : string := String "034"%char EmptyString.

(** Go's [len] on a string. *)
Definition len (s : string) : Z := Z.of_nat (String.length s).

(** The outcome of running Go code: it returns, or it panics. *)
Inductive exec (A : Type) : Type :=
| Returns (a : A)
| Panics (msg : string).
Global Arguments Returns {A} a.
Global Arguments Panics {A} msg.

(** The slice expression [s[lo:hi]] on a string: Go requires
    [0 <= lo <= hi <= len(s)] and panics otherwise. *)
Definition slice (s : string) (lo hi : Z) : exec string :=
  if (0 <=? lo) && (lo <=? hi) && (hi <=? len s)
  then Returns (substring (Z.to_nat lo) (Z.to_nat (hi - lo)) s)
  else Panics "runtime error: slice bounds out of range".

(** Go's [error] interface, observed through its message. *)
Inductive error : Type :=
| errorString (msg : string).

Definition Error (e : error) : string :=
  match e with errorString msg => msg end.

(** [fmt.Errorf(prefix + "%v", s)] for a string argument [s]. *)
Definition Errorf (prefix s : string) : error := errorString (prefix +:+ s).

(** A library call documented to return either a value or an error. *)
Inductive result (A : Type) : Type :=
| Ok (a : A)
| Err (e : error).
Global Arguments Ok {A} a.
Global Arguments Err {A} e.

(** Computations over a state [St] that may panic; the state reached at
    the panic is kept. *)
Definition M (St A : Type) : Type := St → (exec A * St)%type.

Global Instance M_ret {St} : MRet (M St) := λ A a s, (Returns a, s).

Global Instance M_bind {St} : MBind (M St) := λ A B k m s,
  match m s with
  | (Returns a, s') => k a s'
  | (Panics msg, s') => (Panics msg, s')
  end.

Definition panic {St A} (msg : string) : M St A := λ s, (Panics msg, s).

Definition gets {St A} (f : St → A) : M St A := λ s, (Returns (f s), s).

Definition modify {St} (f : St → St) : M St unit := λ s, (Returns tt, f s).

(** Lift a panicking pure computation. *)
Definition run {St A} (x : exec A) : M St A := λ s, (x, s).

End Go.
Export Go.


(** ** The library types the two files use *)

(** [url.Userinfo]. *)
Record Userinfo : Type := mkUserinfo {
  ui_username : string;
  ui_password : string;
  ui_passwordSet : bool;
}.

(** [url.URL], field by field. *)
Record URL : Type := mkURL {
  Scheme : string;
  Opaque : string;
  URLUser : option Userinfo;
  Host : string;
  Path : string;
  RawPath : string;
  OmitHost : bool;
  ForceQuery : bool;
  RawQuery : string;
  Fragment : string;
  RawFragment : string;
}.

(** The assignment [u.RawQuery = q] on a URL struct. *)
Definition set_RawQuery (q : string) (u : URL) : URL :=
  mkURL u.(Scheme) u.(Opaque) u.(URLUser) u.(Host) u.(Path) u.(RawPath)
        u.(OmitHost) u.(ForceQuery) q u.(Fragment) u.(RawFragment).

(** [url.Values] and [http.Header] are both [map[string][]string]. *)
Abbreviation Values := (gmap string (list string)).
Abbreviation Header := (gmap string (list string)).

(** [func (v Values) Add(key, value string)]:
    [v[key] = append(v[key], value)]. *)
Definition Values_Add (v : Values) (key value : string) : Values :=
  <[key := default [] (v !! key) ++ [value]]> v.

(** [func (v Values) Get(key string) string]: the first value of the key,
    or the empty string. *)
Definition Values_Get (v : Values) (key : string) : string :=
  match default [] (v !! key) with
  | [] => EmptyString
  | x :: _ => x
  end.

(** The validated principal.

    Modelled from the spec: the declaration of [AuthenticationResponse] is
    not in these two files. The spec gives it a principal identifier and an
    optional mapping from attribute name to an ordered sequence of values;
    the code sets the principal through the field [User]. (The field
    [User] of [url.URL] is [URLUser] here.) *)
Record AuthenticationResponse : Type := mkAuthenticationResponse {
  User : string;
  Attributes : gmap string (list string);
}.

(** The composite literal [&AuthenticationResponse{User: user}]: every
    other field has its zero value. *)
Definition AuthenticationResponse_User (user : string)
  : AuthenticationResponse :=
  mkAuthenticationResponse user ∅.

(** [http.Request], with the fields these files and their callees touch.
    [ReqAuth] is the slot of the request context under the package's
    authentication key: [None] while the key is unset. *)
Record Request : Type := mkRequest {
  Method : string;
  ReqURL : URL;
  ReqHeader : Header;
  ReqAuth : option (option AuthenticationResponse);
}.

(** [http.Response]; [Body] is what [io.ReadAll(resp.Body)] returns. *)
Record Response : Type := mkResponse {
  Status : string;
  StatusCode : Z;
  Body : string * option error;
}.

(** [io.ReadAll(resp.Body)]: the bytes read and the read error, if any. *)
Definition io_ReadAll (body : string * option error) : string * option error :=
  body.

Definition StatusOK : Z := 200.
Definition StatusNotFound : Z := 404.

(** The observable state of an [http.ResponseWriter]: its header map and
    the status code written, if any. *)
Record ResponseWriter : Type := mkResponseWriter {
  RWHeader : Header;
  RWStatus : option Z;
}.

(** [w.WriteHeader(code)]: the first status written stands. *)
Definition WriteHeader (code : Z) (w : ResponseWriter) : ResponseWriter :=
  match w.(RWStatus) with
  | None => mkResponseWriter w.(RWHeader) (Some code)
  | Some _ => w
  end.

(** ** Functions from outside the two files

    The standard library functions are taken as an interface: every theorem
    below holds for any implementation of it. An executable instance follows
    further down and is used to run the code on concrete inputs. *)

Class Library : Type := {
  (** [path.Join(elem...)] *)
  path_Join : list string → string;
  (** [url.Parse(rawURL)] *)
  url_Parse : string → result URL;
  (** [u.ResolveReference(ref)], as a function of both structs; the
      pointer it returns is always a new struct. *)
  URL_ResolveReference : URL → URL → URL;
  (** [u.Query()], as a function of [u.RawQuery]; parse errors are
      dropped by [Query]. *)
  url_ParseQuery : string → Values;
  (** [Values.Encode()] *)
  Values_Encode : Values → string;
  (** [u.String()] *)
  URL_String : URL → string;
  (** [textproto.CanonicalMIMEHeaderKey(s)] *)
  CanonicalMIMEHeaderKey : string → string;
  (** [http.NewRequest(method, url, nil)] *)
  http_NewRequest : string → string → result Request;
  (** [http.parseBasicAuth(auth)] *)
  parseBasicAuth : string → string * string * bool;
}.

(** Functions of package [cas] that are declared in other files. *)
Class Package : Type := {
  (** [sanitisedURLString(unclean)], taken as a function of the struct its
      argument points to: it reads [*unclean] and writes to no struct of
      the caller. *)
  sanitisedURLString : URL → string;
  (** [ParseServiceResponse(data []byte)] *)
  ParseServiceResponse :
    string → option AuthenticationResponse * option error;
  (** [setAuthenticationResponse(r, a)], by the request it leaves in [*r]. *)
  setAuthenticationResponse :
    Request → option AuthenticationResponse → Request;
}.

(** [func (h Header) Set(key, value string)],
    [func (h Header) Add(key, value string)] and
    [func (h Header) Get(key string) string]: the key is canonicalised. *)
Definition Header_Set `{Library} (h : Header) (key value : string) : Header :=
  <[CanonicalMIMEHeaderKey key := [value]]> h.

Definition Header_Add `{Library} (h : Header) (key value : string) : Header :=
  Values_Add h (CanonicalMIMEHeaderKey key) value.

Definition Header_Get `{Library} (h : Header) (key : string) : string :=
  Values_Get h (CanonicalMIMEHeaderKey key).

(** [r.Header.Add(key, value)] on a request. *)
Definition Request_Header_Add `{Library} (r : Request) (key value : string)
  : Request :=
  mkRequest r.(Method) r.(ReqURL) (Header_Add r.(ReqHeader) key value)
            r.(ReqAuth).

(** [w.Header().Set(key, value)] on a response writer. *)
Definition RW_Header_Set `{Library} (w : ResponseWriter) (key value : string)
  : ResponseWriter :=
  mkResponseWriter (Header_Set w.(RWHeader) key value) w.(RWStatus).

(** [func (r *Request) BasicAuth()]: no [Authorization] header, or one that
    [parseBasicAuth] rejects, gives [ok = false]. *)
Definition BasicAuth `{Library} (r : Request) : string * string * bool :=
  let auth := Header_Get r.(ReqHeader) "Authorization" in
  if String.eqb auth EmptyString then (EmptyString, EmptyString, false)
  else parseBasicAuth auth.

(** ** The state the validator runs in *)

(** A [*url.URL]: [None] is [nil], [Some l] the address of a struct. *)
Definition ptr : Type := option nat.

(** The calls leaving [service_validate.go], in the order they are made. *)
Inductive Call : Type :=
| CallDo (r : Request)                      (** [validator.client.Do(r)] *)
| CallParseServiceResponse (body : string). (** [ParseServiceResponse(body)] *)

(** The store of URL structs and the call log. *)
Record World : Type := mkWorld {
  urls : list URL;
  calls : list Call;
}.

(** [*http.Client], by what its [Do] answers to a request after the calls
    made so far. *)
Definition Client : Type := list Call → Request → result Response.

(** Dereference of a URL pointer; a nil pointer panics. *)
Definition load (p : ptr) : M World URL := λ w,
  match p with
  | None =>
      panic "runtime error: invalid memory address or nil pointer dereference" w
  | Some l =>
      match w.(urls) !! l with
      | Some u => (Returns u, w)
      | None => panic "runtime error: invalid memory address" w
      end
  end.

(** A new URL struct; its address is not the address of any struct of the
    store. *)
Definition alloc (u : URL) : M World ptr := λ w,
  (Returns (Some (length w.(urls))), mkWorld (w.(urls) ++ [u]) w.(calls)).

(** [p.RawQuery = q]. *)
Definition store_RawQuery (p : ptr) (q : string) : M World unit :=
  u ← load p;
  match p with
  | Some l => modify (λ w, mkWorld (<[l := set_RawQuery q u]> w.(urls)) w.(calls))
  | None => mret tt
  end.

(** Append a call to the log. *)
Definition record (c : Call) : M World unit :=
  modify (λ w, mkWorld w.(urls) (w.(calls) ++ [c])).

(** [client.Do(r)]: the call is logged, the client answers. *)
Definition Client_Do (client : Client) (r : Request) : M World (result Response) :=
  history ← gets calls;
  record (CallDo r);;
  mret (client history r).

(** [func (u *URL) Parse(ref string)]: [url.Parse(ref)], then
    [u.ResolveReference] into a new struct. *)
Definition URL_Parse `{Library} (u : ptr) (ref : string)
  : M World (ptr * option error) :=
  match url_Parse ref with
  | Err e => mret (None, Some e)
  | Ok refURL =>
      base ← load u;
      p ← alloc (URL_ResolveReference base refURL);
      mret (p, None)
  end.

(** ** service_validate.go *)

Section service_validate.
Context `{Library} `{Package}.

(** [type ServiceTicketValidator struct] *)
Record ServiceTicketValidator : Type := mkServiceTicketValidator {
  client : Client;
  casURL : ptr;
}.

Definition NewServiceTicketValidator (client : Client) (casURL : ptr)
  : ServiceTicketValidator :=
  mkServiceTicketValidator client casURL.

(** [func (validator *ServiceTicketValidator) ServiceValidateUrl] *)
Definition ServiceValidateUrl (validator : ServiceTicketValidator)
    (serviceURL : ptr) (ticket : string) : M World (string * option error) :=
  base ← load validator.(casURL);
  '(u, err) ← URL_Parse validator.(casURL)
                (path_Join [base.(Path); "serviceValidate"]);
  match err with
  | Some e => mret (EmptyString, Some e)
  | None =>
      uv ← load u;
      let q := url_ParseQuery uv.(RawQuery) in
      unclean ← load serviceURL;
      let q := Values_Add q "service" (sanitisedURLString unclean) in
      let q := Values_Add q "ticket" ticket in
      store_RawQuery u (Values_Encode q);;
      uv ← load u;
      mret (URL_String uv, None)
  end.

(** [func (validator *ServiceTicketValidator) ValidateUrl] *)
Definition ValidateUrl (validator : ServiceTicketValidator)
    (serviceURL : ptr) (ticket : string) : M World (string * option error) :=
  base ← load validator.(casURL);
  '(u, err) ← URL_Parse validator.(casURL)
                (path_Join [base.(Path); "validate"]);
  match err with
  | Some e => mret (EmptyString, Some e)
  | None =>
      uv ← load u;
      let q := url_ParseQuery uv.(RawQuery) in
      unclean ← load serviceURL;
      let q := Values_Add q "service" (sanitisedURLString unclean) in
      let q := Values_Add q "ticket" ticket in
      store_RawQuery u (Values_Encode q);;
      uv ← load u;
      mret (URL_String uv, None)
  end.

(** [func (validator *ServiceTicketValidator) validateTicketCas1] *)
Definition validateTicketCas1 (validator : ServiceTicketValidator)
    (serviceURL : ptr) (ticket : string)
  : M World (option AuthenticationResponse * option error) :=
  '(u, err) ← ValidateUrl validator serviceURL ticket;
  match err with
  | Some e => mret (None, Some e)
  | None =>
  match http_NewRequest "GET" u with
  | Err e => mret (None, Some e)
  | Ok r =>
  let r := Request_Header_Add r "User-Agent" "Golang CAS client gopkg.in/cas" in
  resp ← Client_Do validator.(client) r;
  match resp with
  | Err e => mret (None, Some e)
  | Ok resp =>
  let '(data, err) := io_ReadAll resp.(Body) in
  match err with
  | Some e => mret (None, Some e)
  | None =>
  let body := data in
  if negb (resp.(StatusCode) =? StatusOK)
  then mret (None, Some (Errorf "cas: validate ticket: " body))
  else
  if String.eqb body ("no" +:+ nl +:+ nl)
  then mret (None, None)
  else
    user ← run (slice body 4 (len body - 1));
    let success := AuthenticationResponse_User user in
    mret (Some success, None)
  end end end end.

(** [func (validator *ServiceTicketValidator) ValidateTicket] *)
Definition ValidateTicket (validator : ServiceTicketValidator)
    (serviceURL : ptr) (ticket : string)
  : M World (option AuthenticationResponse * option error) :=
  '(u, err) ← ServiceValidateUrl validator serviceURL ticket;
  match err with
  | Some e => mret (None, Some e)
  | None =>
  match http_NewRequest "GET" u with
  | Err e => mret (None, Some e)
  | Ok r =>
  let r := Request_Header_Add r "User-Agent" "Golang CAS client gopkg.in/cas" in
  resp ← Client_Do validator.(client) r;
  match resp with
  | Err e => mret (None, Some e)
  | Ok resp =>
  if resp.(StatusCode) =? StatusNotFound
  then validateTicketCas1 validator serviceURL ticket
  else
  let '(body, err) := io_ReadAll resp.(Body) in
  match err with
  | Some e => mret (None, Some e)
  | None =>
  if negb (resp.(StatusCode) =? StatusOK)
  then mret (None, Some (Errorf "cas: validate ticket: " body))
  else
    record (CallParseServiceResponse body);;
    let '(success, err) := ParseServiceResponse body in
    match err with
    | Some e => mret (None, Some e)
    | None => mret (success, None)
    end
  end end end end.

End service_validate.

(** ** rest_handler.go *)

(** The calls leaving [rest_handler.go], in the order they are made. *)
Inductive HandlerCall : Type :=
| CallRequestGrantingTicket (username password : string)
| CallRequestServiceTicket (tgt : string)
| CallValidateServiceTicket (st : string)
| CallServeHTTP (w : ResponseWriter) (r : Request).

(** The state a request is served in: the state [St] the REST client and
    the wrapped handler work on, and the call log. *)
Record Serving (St : Type) : Type := mkServing {
  rest : St;
  made : list HandlerCall;
}.
Arguments mkServing {St} rest made.
Arguments rest {St} s.
Arguments made {St} s.

(** The value of the [WWW-Authenticate] header, a Go literal with two
    escaped double quotes. *)
Definition challenge : string :=
  "Basic realm=" +:+ dquote +:+ "CAS Protected Area" +:+ dquote.

Section rest_handler.
Context `{Library} `{Package}.
Context {St : Type}.

(** [*RestClient] is declared in another file; the handler uses it
    through these three methods only. *)
Record RestClient : Type := mkRestClient {
  RequestGrantingTicket : string → string → M St (string * option error);
  RequestServiceTicket : string → M St (string * option error);
  ValidateServiceTicket :
    string → M St (option AuthenticationResponse * option error);
}.

(** [http.Handler]: the effect of [ServeHTTP(w, r)] on the writer. *)
Definition Handler : Type := ResponseWriter → Request → M St ResponseWriter.

(** [type restClientHandler struct] *)
Record restClientHandler : Type := mkRestClientHandler {
  c : RestClient;
  h : Handler;
}.

(** Run a callee on its part of the state, after logging the call. *)
Definition call {A} (ev : HandlerCall) (m : M St A) : M (Serving St) A :=
  λ s, match m s.(rest) with
       | (x, st') => (x, mkServing st' (s.(made) ++ [ev]))
       end.

(** [func (ch *restClientHandler) authenticate] *)
Definition authenticate (ch : restClientHandler) (username password : string)
  : M (Serving St) (option AuthenticationResponse * option error) :=
  '(tgt, err) ← call (CallRequestGrantingTicket username password)
                  (ch.(c).(RequestGrantingTicket) username password);
  match err with
  | Some e => mret (None, Some e)
  | None =>
  '(st, err) ← call (CallRequestServiceTicket tgt)
                 (ch.(c).(RequestServiceTicket) tgt);
  match err with
  | Some e => mret (None, Some e)
  | None =>
  call (CallValidateServiceTicket st) (ch.(c).(ValidateServiceTicket) st)
  end end.

(** [func (ch *restClientHandler) ServeHTTP]; the result is the writer as
    the function leaves it. *)
Definition ServeHTTP (ch : restClientHandler) (w : ResponseWriter)
    (r : Request) : M (Serving St) ResponseWriter :=
  let '(username, password, ok) := BasicAuth r in
  if negb ok then
    let w := RW_Header_Set w "WWW-Authenticate" challenge in
    let w := WriteHeader 401 w in
    mret w
  else
  '(success, err) ← authenticate ch username password;
  match err with
  | Some e =>
    let w := RW_Header_Set w "WWW-Authenticate" challenge in
    let w := WriteHeader 401 w in
    mret w
  | None =>
    let r := setAuthenticationResponse r success in
    call (CallServeHTTP w r) (ch.(h) w r)
  end.

End rest_handler.
Arguments RestClient St : clear implicits.
Arguments Handler St : clear implicits.
Arguments restClientHandler St : clear implicits.

(** ** An executable instance of the library interface

    A small implementation of the library functions after the Go standard
    library, used to run the code on concrete inputs. It covers URLs of the
    forms [scheme://host/path?query#fragment] and [path?query#fragment]
    without user information or opaque parts. *)

Module Std.

Definition between (lo hi c : ascii) : bool :=
  (nat_of_ascii lo <=? nat_of_ascii c)%nat
  && (nat_of_ascii c <=? nat_of_ascii hi)%nat.

Definition is_alpha (c : ascii) : bool :=
  between "a" "z" c || between "A" "Z" c.

Definition is_digit (c : ascii) : bool := between "0" "9" c.

Definition one_of (set : string) (c : ascii) : bool :=
  existsb (Ascii.eqb c) (list_ascii_of_string set).

Definition has_prefix (p s : string) : bool := String.prefix p s.

(** [strings.Cut(s, sep)] for a one-byte separator. *)
Fixpoint cut (sep : ascii) (s : string) : string * string * bool :=
  match s with
  | EmptyString => (EmptyString, EmptyString, false)
  | String c s' =>
      if Ascii.eqb c sep then (EmptyString, s', true)
      else let '(a, b, ok) := cut sep s' in (String c a, b, ok)
  end.

(** [strings.Split(s, sep)] for a one-byte separator. *)
Fixpoint split (sep : ascii) (s : string) : list string :=
  match s with
  | EmptyString => [EmptyString]
  | String c s' =>
      if Ascii.eqb c sep then EmptyString :: split sep s'
      else match split sep s' with
           | x :: xs => String c x :: xs
           | [] => [String c EmptyString]
           end
  end.

Definition join (sep : string) (l : list string) : string :=
  String.concat sep l.

(** [path.Clean] on the components of the path. *)
Definition clean_step (rooted : bool) (stack : list string) (comp : string)
  : list string :=
  if String.eqb comp EmptyString || String.eqb comp "." then stack
  else if String.eqb comp ".." then
    match stack with
    | top :: below => if String.eqb top ".." then comp :: stack else below
    | [] => if rooted then [] else [comp]
    end
  else comp :: stack.

Definition Clean (p : string) : string :=
  let rooted := has_prefix "/" p in
  let comps := rev (fold_left (clean_step rooted) (split "/" p) []) in
  let out := (if rooted then "/" else EmptyString) +:+ join "/" comps in
  if String.eqb out EmptyString then "." else out.

Definition Join (elem : list string) : string :=
  match filter (λ e, e ≠ EmptyString) elem with
  | [] => EmptyString
  | l => Clean (join "/" l)
  end.

(** Percent-encoding. *)
Definition hex_digit (n : nat) : ascii :=
  match get n "0123456789ABCDEF" with
  | Some c => c
  | None => "0"%char
  end.

Definition unhex (c : ascii) : option nat :=
  if is_digit c then Some (nat_of_ascii c - nat_of_ascii "0")%nat
  else if between "a" "f" c then Some (nat_of_ascii c - nat_of_ascii "a" + 10)%nat
  else if between "A" "F" c then Some (nat_of_ascii c - nat_of_ascii "A" + 10)%nat
  else None.

Definition unreserved (c : ascii) : bool :=
  is_alpha c || is_digit c || one_of "-_.~" c.

Definition percent (c : ascii) (rest : string) : string :=
  String "%" (String (hex_digit (nat_of_ascii c / 16))
             (String (hex_digit (nat_of_ascii c mod 16)) rest)).

(** [url.QueryEscape] *)
Fixpoint QueryEscape (s : string) : string :=
  match s with
  | EmptyString => EmptyString
  | String c s' =>
      if unreserved c then String c (QueryEscape s')
      else if Ascii.eqb c " " then String "+" (QueryEscape s')
      else percent c (QueryEscape s')
  end.

(** The escaping of [u.Path] in [u.String()]. *)
Fixpoint PathEscape (s : string) : string :=
  match s with
  | EmptyString => EmptyString
  | String c s' =>
      if unreserved c || one_of "$&+,/:;=@" c then String c (PathEscape s')
      else percent c (PathEscape s')
  end.

(** [url.unescape]; [plus] is true in query mode. *)
Fixpoint unescape (plus : bool) (s : string) : option string :=
  match s with
  | EmptyString => Some EmptyString
  | String "%" (String a (String b s')) =>
      match unhex a, unhex b, unescape plus s' with
      | Some x, Some y, Some r => Some (String (ascii_of_nat (16 * x + y)) r)
      | _, _, _ => None
      end
  | String "%" _ => None
  | String c s' =>
      match unescape plus s' with
      | Some r => Some (String (if plus && Ascii.eqb c "+" then " "%char else c) r)
      | None => None
      end
  end.

(** [url.getScheme] *)
Fixpoint getScheme_from (first : bool) (s : string) : option (option (string * string)) :=
  match s with
  | EmptyString => Some None
  | String c s' =>
      if is_alpha c then
        match getScheme_from false s' with
        | Some (Some (sch, rest)) => Some (Some (String c sch, rest))
        | r => r
        end
      else if is_digit c || one_of "+-." c then
        if first then Some None
        else match getScheme_from false s' with
             | Some (Some (sch, rest)) => Some (Some (String c sch, rest))
             | r => r
             end
      else if Ascii.eqb c ":" then
        if first then None else Some (Some (EmptyString, s'))
      else Some None
  end.

Fixpoint lower (s : string) : string :=
  match s with
  | EmptyString => EmptyString
  | String c s' =>
      String (if between "A" "Z" c then ascii_of_nat (nat_of_ascii c + 32) else c)
             (lower s')
  end.

Definition has_ctl (s : string) : bool :=
  existsb (λ c, (nat_of_ascii c <? 32)%nat || (nat_of_ascii c =? 127)%nat)
          (list_ascii_of_string s).

(** [url.Parse] *)
Definition Parse (rawURL : string) : result URL :=
  let '(u, frag, _) := cut "#" rawURL in
  if has_ctl u then Err (errorString "net/url: invalid control character in URL")
  else
  match getScheme_from true u with
  | None => Err (errorString "missing protocol scheme")
  | Some sch =>
      let '(scheme, rest) :=
        match sch with
        | Some (s, r) => (lower s, r)
        | None => (EmptyString, u)
        end in
      let '(rest, rawq, hasq) := cut "?" rest in
      let force := hasq && String.eqb rawq EmptyString in
      if negb (has_prefix "/" rest) && negb (String.eqb scheme EmptyString)
      then Err (errorString "opaque URLs are not covered")
      else
      if negb (has_prefix "/" rest) && String.eqb scheme EmptyString
         && one_of (fst (fst (cut "/" rest))) ":"
      then Err (errorString "first path segment in URL cannot contain colon")
      else
      let '(host, path) :=
        if has_prefix "//" rest then
          let '(hst, p, slash) := cut "/" (substring 2 (String.length rest) rest) in
          (hst, if slash then String "/" p else EmptyString)
        else (EmptyString, rest) in
      match unescape false path, unescape false frag with
      | Some p, Some f =>
          Ok (mkURL scheme EmptyString None host p EmptyString false force
                    rawq f EmptyString)
      | _, _ => Err (errorString "invalid URL escape")
      end
  end.

(** [url.resolvePath] and [u.ResolveReference], for references without
    scheme, host and opaque part. *)
Definition dir_of (base : string) : string :=
  let comps := split "/" base in
  join "/" (take (length comps - 1) comps) +:+ "/".

Definition resolvePath (base ref : string) : string :=
  let full :=
    if String.eqb ref EmptyString then base
    else if has_prefix "/" ref then ref
    else dir_of base +:+ ref in
  if String.eqb full EmptyString then EmptyString
  else
    let comps := rev (fold_left (clean_step true) (split "/" full) []) in
    let last := default EmptyString (last (split "/" full)) in
    let trail := String.eqb last EmptyString || String.eqb last "."
                 || String.eqb last ".." in
    "/" +:+ join "/" comps +:+
      (if trail && negb (length comps =? 0)%nat then "/" else EmptyString).

Definition ResolveReference (u ref : URL) : URL :=
  if negb (String.eqb ref.(Scheme) EmptyString)
     || negb (String.eqb ref.(Host) EmptyString)
  then mkURL ref.(Scheme) ref.(Opaque) ref.(URLUser) ref.(Host)
             (resolvePath ref.(Path) EmptyString) EmptyString ref.(OmitHost)
             ref.(ForceQuery) ref.(RawQuery) ref.(Fragment) ref.(RawFragment)
  else
    let inherit := String.eqb ref.(Path) EmptyString && negb ref.(ForceQuery)
                   && String.eqb ref.(RawQuery) EmptyString in
    let keepfrag := inherit && String.eqb ref.(Fragment) EmptyString in
    mkURL u.(Scheme) ref.(Opaque) u.(URLUser) u.(Host)
          (resolvePath u.(Path) ref.(Path)) EmptyString ref.(OmitHost)
          ref.(ForceQuery)
          (if inherit then u.(RawQuery) else ref.(RawQuery))
          (if keepfrag then u.(Fragment) else ref.(Fragment))
          (if keepfrag then u.(RawFragment) else ref.(RawFragment)).

(** [url.ParseQuery], dropping the pairs that do not decode. *)
Definition parse_pair (m : Values) (kv : string) : Values :=
  if String.eqb kv EmptyString then m
  else
    let '(k, v, _) := cut "=" kv in
    match unescape true k, unescape true v with
    | Some k', Some v' => Values_Add m k' v'
    | _, _ => m
    end.

Definition ParseQuery (query : string) : Values :=
  fold_left parse_pair (split "&" query) ∅.

(** [Values.Encode]: the keys in increasing order, each with its values
    in order. *)
Definition string_le (a b : string) : Prop := String.leb a b = true.

Global Instance string_le_dec a b : Decision (string_le a b).
Proof. unfold string_le. apply _. Defined.

Definition encode_key (kv : string * list string) : list string :=
  (λ v, QueryEscape kv.1 +:+ "=" +:+ QueryEscape v) <$> kv.2.

Definition Encode (v : Values) : string :=
  let keys := merge_sort string_le (fst <$> map_to_list v) in
  join "&" (concat ((λ k, encode_key (k, default [] (v !! k))) <$> keys)).

(** [u.String()] *)
Definition String_ (u : URL) : string :=
  (if String.eqb u.(Scheme) EmptyString then EmptyString
   else u.(Scheme) +:+ ":") +:+
  (if String.eqb u.(Host) EmptyString then EmptyString
   else "//" +:+ u.(Host)) +:+
  (if negb (String.eqb u.(Path) EmptyString) && negb (has_prefix "/" u.(Path))
      && negb (String.eqb u.(Host) EmptyString)
   then "/" else EmptyString) +:+
  PathEscape u.(Path) +:+
  (if u.(ForceQuery) || negb (String.eqb u.(RawQuery) EmptyString)
   then "?" +:+ u.(RawQuery) else EmptyString) +:+
  (if String.eqb u.(Fragment) EmptyString then EmptyString
   else "#" +:+ PathEscape u.(Fragment)).

(** [textproto.CanonicalMIMEHeaderKey]: a key made of token bytes gets an
    upper-case letter first and after every dash, lower-case elsewhere;
    any other key is returned as it is. *)
Definition validHeaderFieldByte (c : ascii) : bool :=
  is_alpha c || is_digit c || one_of "!#$%&'*+-.^_`|~" c.

Fixpoint canonical (upper : bool) (s : string) : string :=
  match s with
  | EmptyString => EmptyString
  | String c s' =>
      let c' :=
        if upper && between "a" "z" c then ascii_of_nat (nat_of_ascii c - 32)
        else if negb upper && between "A" "Z" c then ascii_of_nat (nat_of_ascii c + 32)
        else c in
      String c' (canonical (Ascii.eqb c' "-") s')
  end.

Definition CanonicalKey (s : string) : string :=
  if forallb validHeaderFieldByte (list_ascii_of_string s)
  then canonical true s else s.

(** [http.NewRequest(method, url, nil)] for the method [GET]. *)
Definition NewRequest (method url : string) : result Request :=
  match Parse url with
  | Err e => Err e
  | Ok u => Ok (mkRequest method u ∅ None)
  end.

(** [base64.StdEncoding.DecodeString] *)
Definition b64val (c : ascii) : option nat :=
  let n := nat_of_ascii c in
  if between "A" "Z" c then Some (n - 65)%nat
  else if between "a" "z" c then Some (n - 97 + 26)%nat
  else if is_digit c then Some (n - 48 + 52)%nat
  else if Ascii.eqb c "+" then Some 62%nat
  else if Ascii.eqb c "/" then Some 63%nat
  else None.

Fixpoint b64decode (l : list ascii) : option (list ascii) :=
  match l with
  | [] => Some []
  | a :: b :: c :: d :: rest =>
      match b64val a, b64val b with
      | Some x, Some y =>
          let b0 := ascii_of_nat (x * 4 + y / 16) in
          if Ascii.eqb d "=" then
            match rest with
            | [] =>
                if Ascii.eqb c "=" then Some [b0]
                else match b64val c with
                     | Some z => Some [b0; ascii_of_nat ((y mod 16) * 16 + z / 4)]
                     | None => None
                     end
            | _ => None
            end
          else
            match b64val c, b64val d, b64decode rest with
            | Some z, Some t, Some r =>
                Some (b0 :: ascii_of_nat ((y mod 16) * 16 + z / 4)
                         :: ascii_of_nat ((z mod 4) * 64 + t) :: r)
            | _, _, _ => None
            end
      | _, _ => None
      end
  | _ => None
  end.

(** [http.parseBasicAuth] *)
Definition ParseBasicAuth (auth : string) : string * string * bool :=
  if (String.length auth <? 6)%nat
     || negb (String.eqb (lower (substring 0 6 auth)) "basic ")
  then (EmptyString, EmptyString, false)
  else
    match b64decode (list_ascii_of_string
                       (substring 6 (String.length auth - 6) auth)) with
    | None => (EmptyString, EmptyString, false)
    | Some cs =>
        let '(user, pass, ok) := cut ":" (string_of_list_ascii cs) in
        if ok then (user, pass, true) else (EmptyString, EmptyString, false)
    end.

Definition library : Library := {|
  path_Join := Join;
  url_Parse := Parse;
  URL_ResolveReference := ResolveReference;
  url_ParseQuery := ParseQuery;
  Values_Encode := Encode;
  URL_String := String_;
  CanonicalMIMEHeaderKey := CanonicalKey;
  http_NewRequest := NewRequest;
  parseBasicAuth := ParseBasicAuth;
|}.

(** An instance of the functions the package declares elsewhere: the
    service URL is rendered without the CAS parameters of its query, the
    service response is read for its [cas:user] element only, and the
    authentication response is stored in the request. *)
Definition sanitised (unclean : URL) : string :=
  let q := ParseQuery unclean.(RawQuery) in
  let q := foldr delete q ["gateway"; "renew"; "service"; "ticket"] in
  String_ (set_RawQuery (Encode q) unclean).

Fixpoint find (needle s : string) : option string :=
  if has_prefix needle s
  then Some (substring (String.length needle) (String.length s) s)
  else match s with
       | EmptyString => None
       | String _ s' => find needle s'
       end.

Fixpoint before (needle s : string) : option string :=
  if has_prefix needle s then Some EmptyString
  else match s with
       | EmptyString => None
       | String c s' => String c <$> before needle s'
       end.

Definition parseUser (body : string)
  : option AuthenticationResponse * option error :=
  match find "<cas:user>" body ≫= before "</cas:user>" with
  | Some user => (Some (AuthenticationResponse_User user), None)
  | None => (None, Some (errorString "cas: unexpected service response"))
  end.

Definition package : Package := {|
  sanitisedURLString := sanitised;
  ParseServiceResponse := parseUser;
  setAuthenticationResponse r a :=
    mkRequest r.(Method) r.(ReqURL) r.(ReqHeader) (Some a);
|}.

End Std.

(** ** Vocabulary of the properties *)

(** The user agent both validation requests carry. *)
Definition userAgent : string := "Golang CAS client gopkg.in/cas".

(** The spec's validation outcome, read off the pair a validation returns:
    a non-nil error is an error, [(nil, nil)] is the server's plain "no",
    and a response without error is a success. *)
Inductive ValidationOutcome : Type :=
| Success (a : AuthenticationResponse)
| NotAuthenticated
| Failure (e : error).

Definition outcome (res : option AuthenticationResponse * option error)
  : ValidationOutcome :=
  match res with
  | (_, Some e) => Failure e
  | (Some a, None) => Success a
  | (None, None) => NotAuthenticated
  end.

(** The struct a pointer addresses in a world, if any. *)
Definition deref (w : World) (p : ptr) : option URL :=
  match p with
  | None => None
  | Some l => w.(urls) !! l
  end.

(** A pointer of the program is nil or addresses a struct of the store. *)
Definition valid (w : World) (p : ptr) : Prop :=
  match p with
  | None => True
  | Some l => (l < length w.(urls))%nat
  end.

(** The requests sent through the client, in order. *)
Definition requests (log : list Call) : list Request :=
  omap (λ c, match c with CallDo r => Some r | _ => None end) log.

(** The world in which the client has just been called with [r]. *)
Definition after_Do (w : World) (r : Request) : World :=
  mkWorld w.(urls) (w.(calls) ++ [CallDo r]).

(** The calls of the wrapped handler in a handler log. *)
Definition served (log : list HandlerCall) : list (ResponseWriter * Request) :=
  omap (λ c, match c with CallServeHTTP w r => Some (w, r) | _ => None end) log.

Section vocabulary.
Context `{Library} `{Package}.

(** The two URL builders have one body, up to the last path element. *)
Definition validation_url (endpoint : string)
    (validator : ServiceTicketValidator) (serviceURL : ptr) (ticket : string)
  : M World (string * option error) :=
  base ← load validator.(casURL);
  '(u, err) ← URL_Parse validator.(casURL) (path_Join [base.(Path); endpoint]);
  match err with
  | Some e => mret (EmptyString, Some e)
  | None =>
      uv ← load u;
      let q := url_ParseQuery uv.(RawQuery) in
      unclean ← load serviceURL;
      let q := Values_Add q "service" (sanitisedURLString unclean) in
      let q := Values_Add q "ticket" ticket in
      store_RawQuery u (Values_Encode q);;
      uv ← load u;
      mret (URL_String uv, None)
  end.

(** The query a validation URL carries: the parameters of the endpoint
    URL [u], then [service] and [ticket]. *)
Definition endpoint_query (u service : URL) (ticket : string) : Values :=
  Values_Add
    (Values_Add (url_ParseQuery u.(RawQuery)) "service"
                (sanitisedURLString service))
    "ticket" ticket.

(** The endpoint URL as a struct: [endpoint] under the CAS base, with the
    query above. *)
Definition endpoint_struct (ref base service : URL) (ticket : string) : URL :=
  let u := URL_ResolveReference base ref in
  set_RawQuery (Values_Encode (endpoint_query u service ticket)) u.

(** The validation URL in the spec's words: the endpoint under the CAS
    base, with the query parameters [service], the rendering of the
    service URL, and [ticket]. *)
Definition endpoint_url (endpoint : string) (base service : URL)
    (ticket : string) : string * option error :=
  match url_Parse (path_Join [base.(Path); endpoint]) with
  | Err e => (EmptyString, Some e)
  | Ok ref => (URL_String (endpoint_struct ref base service ticket), None)
  end.

(** The CAS2 request for [(serviceURL, ticket)] can be built in [w]; it is
    [r], and the world is then [w1]. *)
Definition cas2_request (validator : ServiceTicketValidator)
    (serviceURL : ptr) (ticket : string) (w w1 : World) (r : Request) : Prop :=
  ∃ u r0,
    ServiceValidateUrl validator serviceURL ticket w = (Returns (u, None), w1)
    ∧ http_NewRequest "GET" u = Ok r0
    ∧ r = Request_Header_Add r0 "User-Agent" userAgent.

(** The same for the CAS1 request. *)
Definition cas1_request (validator : ServiceTicketValidator)
    (serviceURL : ptr) (ticket : string) (w w1 : World) (r : Request) : Prop :=
  ∃ u r0,
    ValidateUrl validator serviceURL ticket w = (Returns (u, None), w1)
    ∧ http_NewRequest "GET" u = Ok r0
    ∧ r = Request_Header_Add r0 "User-Agent" userAgent.

(** The client answers the request [r], sent from the world [w1], with
    the response [resp]. *)
Definition answers (validator : ServiceTicketValidator) (w1 : World)
    (r : Request) (resp : Response) : Prop :=
  validator.(client) w1.(calls) r = Ok resp.

End vocabulary.

(** ** A concrete deployment

    A CAS server at [https://cas.example.com/cas] protecting the service
    [https://app.example.com/], with a client that plays a script of
    answers. *)

Module Scenario.

Definition casBase : URL :=
  mkURL "https" EmptyString None "cas.example.com" "/cas" EmptyString
        false false EmptyString EmptyString EmptyString.

Definition service : URL :=
  mkURL "https" EmptyString None "app.example.com" "/" EmptyString
        false false EmptyString EmptyString EmptyString.

Definition casPtr : ptr := Some 0%nat.
Definition servicePtr : ptr := Some 1%nat.

Definition world0 : World := mkWorld [casBase; service] [].

(** The [n]-th request is answered by the [n]-th entry of the script;
    after that the connection fails. *)
Definition scripted (script : list (result Response)) : Client :=
  λ history _,
    default (Err (errorString "connection refused"))
            (script !! length (requests history)).

Definition reply (code : Z) (body : string) : result Response :=
  Ok (mkResponse EmptyString code (body, None)).

Definition validator (script : list (result Response))
  : ServiceTicketValidator :=
  NewServiceTicketValidator (scripted script) casPtr.

(** A REST client whose ticket requests succeed and whose validation is
    the validator above. *)
Definition restClient (script : list (result Response)) : RestClient World :=
  mkRestClient
    (λ _ _, mret ("TGT-1", None))
    (λ _, mret ("ST-1", None))
    (λ st, ValidateTicket (H := Std.library) (H0 := Std.package)
             (validator script) servicePtr st).

(** A wrapped handler that answers 200. *)
Definition okHandler : Handler World :=
  λ w _, mret (WriteHeader 200 w).

Definition handler (script : list (result Response))
  : restClientHandler World :=
  mkRestClientHandler (restClient script) okHandler.

Definition blank : ResponseWriter := mkResponseWriter ∅ None.

(** An inbound request with the given [Authorization] header. *)
Definition inbound (authorization : option string) : Request :=
  mkRequest "GET" service
    (match authorization with
     | Some a => {["Authorization" := [a]]}
     | None => ∅
     end) None.

Definition serving0 : Serving World := mkServing world0 [].

End Scenario.

(** ** Further runs of the deployment

    Failing stages of the REST chain, a CAS base whose path does not parse,
    a truncated response and a CAS2 success document. *)

Module Cases.

(** A REST client whose granting-ticket request is refused. *)
Definition grantFails : RestClient World :=
  mkRestClient
    (λ _ _, mret (EmptyString, Some (errorString "cas: 401 Unauthorized")))
    (λ _, mret ("ST-1", None))
    (λ _, mret (None, None)).

(** A REST client whose service-ticket request is refused. *)
Definition ticketFails : RestClient World :=
  mkRestClient
    (λ _ _, mret ("TGT-1", None))
    (λ _, mret (EmptyString, Some (errorString "cas: 404 Not Found")))
    (λ _, mret (None, None)).

Definition handlerOf (rc : RestClient World) : restClientHandler World :=
  mkRestClientHandler rc Scenario.okHandler.

(** The credentials [alice:secret]. *)
Definition alice : Request :=
  Scenario.inbound (Some "Basic YWxpY2U6c2VjcmV0").

(** A CAS base whose path has a broken percent escape. *)
Definition brokenBase : URL :=
  mkURL "https" EmptyString None "cas.example.com" "/cas%zz" EmptyString
        false false EmptyString EmptyString EmptyString.

Definition brokenWorld : World :=
  mkWorld [brokenBase; Scenario.service] [].

(** A response whose body breaks off while it is read. *)
Definition truncated (code : Z) : result Response :=
  Ok (mkResponse EmptyString code
        ("<cas:", Some (errorString "unexpected EOF"))).

(** The CAS2 success document for the user [bob]. *)
Definition bobDocument : string :=
  "<cas:serviceResponse><cas:authenticationSuccess><cas:user>bob</cas:user></cas:authenticationSuccess></cas:serviceResponse>".

Definition bob : AuthenticationResponse := AuthenticationResponse_User "bob".

End Cases.

(** ** Running the monad *)

Lemma bind_run {St A B} (m : M St A) (k : A → M St B) (s : St) :
  (m ≫= k) s =
  match m s with
  | (Returns a, s') => k a s'
  | (Panics msg, s') => (Panics msg, s')
  end.
Proof. reflexivity. Qed.

Lemma load_deref (w : World) (p : ptr) (u : URL) :
  deref w p = Some u → load p w = (Returns u, w).
Proof.
  destruct p as [l|]; simpl; [|discriminate].
  intros ->. reflexivity.
Qed.

Lemma deref_valid (w : World) (p : ptr) (u : URL) :
  deref w p = Some u → valid w p.
Proof.
  destruct p as [l|]; simpl; [|done].
  intros Hl. eapply lookup_lt_Some, Hl.
Qed.

Lemma deref_grow (w : World) (p : ptr) (u : URL) (extra : list URL) (log : list Call) :
  deref w p = Some u → deref (mkWorld (w.(urls) ++ extra) log) p = Some u.
Proof.
  destruct p as [l|]; simpl; [|discriminate].
  intros Hl. by apply lookup_app_l_Some.
Qed.

Lemma deref_fresh (l : list URL) (u : URL) (log : list Call) :
  deref (mkWorld (l ++ [u]) log) (Some (length l)) = Some u.
Proof. simpl. by rewrite list_lookup_middle. Qed.

Lemma store_fresh (l : list URL) (u : URL) (log : list Call) (q : string) :
  store_RawQuery (Some (length l)) q (mkWorld (l ++ [u]) log)
  = (Returns tt, mkWorld (l ++ [set_RawQuery q u]) log).
Proof.
  unfold store_RawQuery. rewrite bind_run, (load_deref _ _ _ (deref_fresh l u log)).
  unfold modify. simpl. f_equal. f_equal.
  rewrite insert_app_r_alt by lia. by rewrite Nat.sub_diag.
Qed.

Section url_builders.
Context `{Library} `{Package}.

Lemma ServiceValidateUrl_shape v s t :
  ServiceValidateUrl v s t = validation_url "serviceValidate" v s t.
Proof. reflexivity. Qed.

Lemma ValidateUrl_shape v s t :
  ValidateUrl v s t = validation_url "validate" v s t.
Proof. reflexivity. Qed.

(** With both pointers addressing structs, a builder either reports the
    parse error of the joined path and leaves the world as it was, or
    allocates the endpoint struct and returns its rendering. *)
Lemma validation_url_run endpoint v s t w base service :
  deref w v.(casURL) = Some base →
  deref w s = Some service →
  validation_url endpoint v s t w =
  match url_Parse (path_Join [base.(Path); endpoint]) with
  | Err e => (Returns (EmptyString, Some e), w)
  | Ok ref =>
      (Returns (URL_String (endpoint_struct ref base service t), None),
       mkWorld (w.(urls) ++ [endpoint_struct ref base service t]) w.(calls))
  end.
Proof.
  intros Hbase Hservice.
  unfold validation_url, URL_Parse.
  rewrite bind_run, (load_deref _ _ _ Hbase).
  destruct (url_Parse _) as [ref|e]; [|destruct w; reflexivity].
  rewrite !bind_run, (load_deref _ _ _ Hbase).
  set (u := URL_ResolveReference base ref).
  change (alloc u w) with
    (Returns (Some (length w.(urls))), mkWorld (w.(urls) ++ [u]) w.(calls)).
  rewrite (bind_run (alloc u)).
  change (alloc u w) with
    (Returns (Some (length w.(urls))), mkWorld (w.(urls) ++ [u]) w.(calls)).
  cbn [mret M_ret].
  rewrite bind_run, (load_deref _ _ _ (deref_fresh _ u _)).
  rewrite bind_run, (load_deref _ _ _ (deref_grow _ _ _ [u] _ Hservice)).
  rewrite bind_run, store_fresh.
  rewrite bind_run, (load_deref _ _ _ (deref_fresh _ _ _)).
  reflexivity.
Qed.

(** Whatever the pointers are, a builder only adds structs to the store
    and makes no call. *)
Lemma validation_url_frame endpoint v s t w :
  ∃ extra,
    (validation_url endpoint v s t w).2
    = mkWorld (w.(urls) ++ extra) w.(calls).
Proof.
  unfold validation_url, URL_Parse.
  rewrite bind_run.
  destruct (deref w v.(casURL)) as [base|] eqn:Hbase.
  2:{ exists []. rewrite app_nil_r.
      destruct v.(casURL) as [l|]; simpl in *; [rewrite Hbase|];
        by destruct w. }
  rewrite (load_deref _ _ _ Hbase).
  destruct (url_Parse _) as [ref|e].
  2:{ exists []. rewrite app_nil_r. by destruct w. }
  rewrite !bind_run, (load_deref _ _ _ Hbase).
  set (u := URL_ResolveReference base ref).
  rewrite (bind_run (alloc u)).
  change (alloc u w) with
    (Returns (Some (length w.(urls))), mkWorld (w.(urls) ++ [u]) w.(calls)).
  cbn [mret M_ret].
  rewrite bind_run, (load_deref _ _ _ (deref_fresh _ u _)).
  rewrite bind_run.
  destruct (deref (mkWorld (w.(urls) ++ [u]) w.(calls)) s) as [service|] eqn:Hs.
  - rewrite (load_deref _ _ _ Hs), bind_run, store_fresh.
    rewrite bind_run, (load_deref _ _ _ (deref_fresh _ _ _)).
    eexists [_]. reflexivity.
  - exists [u]. destruct s as [l|]; simpl in *; [rewrite Hs|]; reflexivity.
Qed.

Lemma frame_deref (w w' : World) (extra : list URL) (p : ptr) :
  w'.(urls) = w.(urls) ++ extra → valid w p → deref w' p = deref w p.
Proof.
  intros Hw. destruct p as [l|]; simpl; [|done].
  intros Hl. rewrite Hw. by apply lookup_app_l.
Qed.

End url_builders.

(** ** The CAS1 fallback *)

Section cas1.
Context `{Library} `{Package}.

Lemma validation_url_calls endpoint v s t w x w1 :
  validation_url endpoint v s t w = (x, w1) → w1.(calls) = w.(calls).
Proof.
  intros Hrun. destruct (validation_url_frame endpoint v s t w) as [extra Hw].
  rewrite Hrun in Hw. simpl in Hw. by rewrite Hw.
Qed.

Lemma Client_Do_run (cl : Client) (r : Request) (w : World) :
  Client_Do cl r w = (Returns (cl w.(calls) r), after_Do w r).
Proof. reflexivity. Qed.

(** Once the CAS1 request is built, the function is decided by the
    client's answer; the only call it makes is that request. *)
Lemma validateTicketCas1_run v s t w w1 r :
  cas1_request v s t w w1 r →
  validateTicketCas1 v s t w =
  match v.(client) w1.(calls) r with
  | Err e => (Returns (None, Some e), after_Do w1 r)
  | Ok resp =>
      match resp.(Body) with
      | (_, Some e) => (Returns (None, Some e), after_Do w1 r)
      | (body, None) =>
          if negb (resp.(StatusCode) =? StatusOK)
          then (Returns (None, Some (Errorf "cas: validate ticket: " body)),
                after_Do w1 r)
          else if String.eqb body ("no" +:+ nl +:+ nl)
          then (Returns (None, None), after_Do w1 r)
          else
            match slice body 4 (len body - 1) with
            | Returns user =>
                (Returns (Some (AuthenticationResponse_User user), None),
                 after_Do w1 r)
            | Panics msg => (Panics msg, after_Do w1 r)
            end
      end
  end.
Proof.
  intros (u & r0 & Hurl & Hreq & ->).
  unfold validateTicketCas1.
  rewrite bind_run, Hurl, Hreq, bind_run, Client_Do_run.
  fold userAgent.
  destruct (client v _ _) as [resp|e]; [|reflexivity].
  unfold io_ReadAll. destruct (Body resp) as [body [e|]]; [reflexivity|].
  destruct (negb _); [reflexivity|].
  destruct (String.eqb _ _); [reflexivity|].
  rewrite bind_run. unfold run.
  destruct (slice _ _ _); reflexivity.
Qed.

Lemma validateTicketCas1_world v s t w w1 r :
  cas1_request v s t w w1 r →
  (validateTicketCas1 v s t w).2 = after_Do w1 r.
Proof.
  intros Hreq. rewrite (validateTicketCas1_run _ _ _ _ _ _ Hreq).
  destruct (client v _ _) as [resp|e]; [|reflexivity].
  destruct (Body resp) as [body [e|]]; [reflexivity|].
  destruct (negb _); [reflexivity|].
  destruct (String.eqb _ _); [reflexivity|].
  destruct (slice _ _ _); reflexivity.
Qed.

Lemma cas1_request_calls v s t w w1 r :
  cas1_request v s t w w1 r → w1.(calls) = w.(calls).
Proof.
  intros (u & r0 & Hurl & _). rewrite ValidateUrl_shape in Hurl.
  eapply validation_url_calls, Hurl.
Qed.

(** The fallback makes no call at all, or exactly the CAS1 request. *)
Lemma validateTicketCas1_calls v s t w :
  (validateTicketCas1 v s t w).2.(calls) = w.(calls)
  ∨ ∃ w1 r, cas1_request v s t w w1 r
            ∧ (validateTicketCas1 v s t w).2.(calls) = w.(calls) ++ [CallDo r].
Proof.
  destruct (ValidateUrl v s t w) as [[[u [e|]]|msg] w1] eqn:Hurl.
  - left. unfold validateTicketCas1. rewrite bind_run, Hurl. simpl.
    rewrite ValidateUrl_shape in Hurl. eapply validation_url_calls, Hurl.
  - destruct (http_NewRequest "GET" u) as [r0|e] eqn:Hreq.
    + right. exists w1, (Request_Header_Add r0 "User-Agent" userAgent).
      assert (cas1_request v s t w w1
                (Request_Header_Add r0 "User-Agent" userAgent)) as Hbuilt
        by (exists u, r0; done).
      split; [done|].
      rewrite (validateTicketCas1_world _ _ _ _ _ _ Hbuilt). simpl.
      by rewrite (cas1_request_calls _ _ _ _ _ _ Hbuilt).
    + left. unfold validateTicketCas1. rewrite bind_run, Hurl, Hreq. simpl.
      rewrite ValidateUrl_shape in Hurl. eapply validation_url_calls, Hurl.
  - left. unfold validateTicketCas1. rewrite bind_run, Hurl. simpl.
    rewrite ValidateUrl_shape in Hurl. eapply validation_url_calls, Hurl.
Qed.

End cas1.

(** ** The CAS2 attempt *)

Section cas2.
Context `{Library} `{Package}.

Lemma cas2_request_calls v s t w w1 r :
  cas2_request v s t w w1 r → w1.(calls) = w.(calls).
Proof.
  intros (u & r0 & Hurl & _). rewrite ServiceValidateUrl_shape in Hurl.
  eapply validation_url_calls, Hurl.
Qed.

(** Once the CAS2 request is built, the client's answer decides between
    the fallback, the protocol error and the parser. *)
Lemma ValidateTicket_run v s t w w1 r :
  cas2_request v s t w w1 r →
  ValidateTicket v s t w =
  match v.(client) w1.(calls) r with
  | Err e => (Returns (None, Some e), after_Do w1 r)
  | Ok resp =>
      if resp.(StatusCode) =? StatusNotFound
      then validateTicketCas1 v s t (after_Do w1 r)
      else
        match resp.(Body) with
        | (_, Some e) => (Returns (None, Some e), after_Do w1 r)
        | (body, None) =>
            if negb (resp.(StatusCode) =? StatusOK)
            then (Returns (None, Some (Errorf "cas: validate ticket: " body)),
                  after_Do w1 r)
            else
              let w2 := mkWorld w1.(urls)
                          (w1.(calls) ++ [CallDo r; CallParseServiceResponse body]) in
              match ParseServiceResponse body with
              | (_, Some e) => (Returns (None, Some e), w2)
              | (success, None) => (Returns (success, None), w2)
              end
        end
  end.
Proof.
  intros (u & r0 & Hurl & Hreq & ->).
  unfold ValidateTicket.
  rewrite bind_run, Hurl, Hreq, bind_run, Client_Do_run.
  fold userAgent.
  destruct (client v _ _) as [resp|e]; [|reflexivity].
  destruct (_ =? StatusNotFound); [reflexivity|].
  unfold io_ReadAll. destruct (Body resp) as [body [e|]]; [reflexivity|].
  destruct (negb _); [reflexivity|].
  rewrite bind_run. unfold record, modify, after_Do. cbn [urls calls].
  rewrite <- app_assoc. cbn [app].
  destruct (ParseServiceResponse body) as [success [e|]]; reflexivity.
Qed.

End cas2.

(** ** Slicing the CAS1 body *)

Lemma length_app (a b : string) :
  String.length (a +:+ b) = (String.length a + String.length b)%nat.
Proof. induction a as [|c a IH]; simpl; [done|by rewrite IH]. Qed.

Lemma substring_all (u x : string) :
  substring 0 (String.length u) (u +:+ x) = u.
Proof. induction u as [|c u IH]; simpl; [by destruct x|by rewrite IH]. Qed.

Lemma slice_in_bounds (body : string) :
  5 ≤ len body →
  slice body 4 (len body - 1)
  = Returns (substring 4 (String.length body - 5) body).
Proof.
  intros Hlen. unfold slice, len in *.
  replace (Z.to_nat (Z.of_nat (String.length body) - 1 - 4))
    with (String.length body - 5)%nat by lia.
  change (Z.to_nat 4) with 4%nat.
  destruct (0 <=? 4) eqn:H0; [|lia].
  destruct (4 <=? _) eqn:H1; [|lia].
  destruct (_ <=? _) eqn:H2 in |- *; [done|lia].
Qed.

Lemma slice_out_of_bounds (body : string) :
  len body < 5 →
  slice body 4 (len body - 1)
  = Panics "runtime error: slice bounds out of range".
Proof.
  intros Hlen. unfold slice, len in *.
  destruct (4 <=? _) eqn:H1; [lia|].
  by rewrite andb_false_r.
Qed.

Lemma slice_yes (user : string) :
  let body := "yes" +:+ nl +:+ user +:+ nl in
  slice body 4 (len body - 1) = Returns user.
Proof.
  intros body.
  assert (body = String "y" (String "e" (String "s" (String "010" (user +:+ nl)))))
    as -> by reflexivity.
  assert (String.length (user +:+ nl) = S (String.length user)) as Hlen
    by (rewrite length_app; simpl; lia).
  rewrite slice_in_bounds.
  - f_equal. cbn [String.length]. rewrite Hlen.
    replace (S (S (S (S (S (String.length user))))) - 5)%nat
      with (String.length user) by lia.
    cbn [substring]. apply substring_all.
  - unfold len. cbn [String.length]. rewrite Hlen. lia.
Qed.

(** ** The claims about the CAS1 fallback *)

Section cas1_claims.
Context `{Library} `{Package}.

(** C4. In the CAS1 fallback, a 200 response whose body is exactly the
    two-line negative marker yields the pair [(nil, nil)]: no
    authentication response and no error. That pair is the outcome
    NotAuthenticated, which is neither an error nor a success. *)
Theorem cas1_no_is_not_authenticated v s t w w1 r resp :
  cas1_request v s t w w1 r →
  answers v w1 r resp →
  resp.(StatusCode) = StatusOK →
  resp.(Body) = ("no" +:+ nl +:+ nl, None) →
  ∃ res,
    (validateTicketCas1 v s t w).1 = Returns res
    ∧ res = (None, None)
    ∧ outcome res = NotAuthenticated
    ∧ (∀ e, outcome res ≠ Failure e)
    ∧ (∀ a, outcome res ≠ Success a).
Proof.
  intros Hreq Hans Hcode Hbody. exists (None, None).
  rewrite (validateTicketCas1_run _ _ _ _ _ _ Hreq).
  unfold answers in Hans. rewrite Hans, Hbody, Hcode.
  repeat split; done.
Qed.

(** C5. In the CAS1 fallback, a 200 response whose body is the positive
    marker followed by a user name and a newline yields a success whose
    [User] is that user name and whose attributes are empty; the user
    name is the slice of the body from byte 4 to the last byte
    excluded. For the body of the user alice the principal is alice. *)
Theorem cas1_yes_is_success v s t w w1 r resp user :
  let body := "yes" +:+ nl +:+ user +:+ nl in
  cas1_request v s t w w1 r →
  answers v w1 r resp →
  resp.(StatusCode) = StatusOK →
  resp.(Body) = (body, None) →
  (validateTicketCas1 v s t w).1
  = Returns (Some (mkAuthenticationResponse user ∅), None)
  ∧ slice body 4 (len body - 1) = Returns user
  ∧ outcome (Some (mkAuthenticationResponse user ∅), None)
    = Success (mkAuthenticationResponse user ∅).
Proof.
  intros body Hreq Hans Hcode Hbody.
  rewrite (validateTicketCas1_run _ _ _ _ _ _ Hreq).
  unfold answers in Hans. rewrite Hans, Hbody, Hcode.
  pose proof (slice_yes user) as Hslice. cbn zeta in Hslice.
  fold body in Hslice. rewrite Hslice.
  repeat split; done.
Qed.

(** C2, as the code has it. In the CAS1 fallback, every 200 response
    whose body is not the negative marker and is at least 5 bytes long
    yields a success whose [User] is the slice of the body from byte 4 to
    the last byte excluded, whatever the shape of the body; no parse
    error is returned. *)
Theorem cas1_other_bodies_are_sliced v s t w w1 r resp body :
  cas1_request v s t w w1 r →
  answers v w1 r resp →
  resp.(StatusCode) = StatusOK →
  resp.(Body) = (body, None) →
  body ≠ "no" +:+ nl +:+ nl →
  5 ≤ len body →
  (validateTicketCas1 v s t w).1
  = Returns (Some (AuthenticationResponse_User
                     (substring 4 (String.length body - 5) body)), None).
Proof.
  intros Hreq Hans Hcode Hbody Hno Hlen.
  rewrite (validateTicketCas1_run _ _ _ _ _ _ Hreq).
  unfold answers in Hans. rewrite Hans, Hbody, Hcode.
  apply String.eqb_neq in Hno. rewrite Hno.
  rewrite (slice_in_bounds _ Hlen). done.
Qed.

(** C3 fails on the code. For every 200 response whose body is shorter
    than 5 bytes and is not the negative marker, the bounds of
    [body[4 : len(body)-1]] are not in order and [validateTicketCas1] panics
    with a slice bounds error: the function is not total over the bodies. *)
Theorem cas1_short_body_panics v s t w w1 r resp body :
  cas1_request v s t w w1 r →
  answers v w1 r resp →
  resp.(StatusCode) = StatusOK →
  resp.(Body) = (body, None) →
  body ≠ "no" +:+ nl +:+ nl →
  len body < 5 →
  (validateTicketCas1 v s t w).1
  = Panics "runtime error: slice bounds out of range".
Proof.
  intros Hreq Hans Hcode Hbody Hno Hlen.
  rewrite (validateTicketCas1_run _ _ _ _ _ _ Hreq).
  unfold answers in Hans. rewrite Hans, Hbody, Hcode.
  apply String.eqb_neq in Hno. rewrite Hno.
  rewrite (slice_out_of_bounds _ Hlen). done.
Qed.

End cas1_claims.

(** ** The CAS1 claims on the concrete deployment *)

Lemma cas1_no_witness :
  ∃ res,
    (validateTicketCas1 (H := Std.library) (H0 := Std.package)
       (Scenario.validator [Scenario.reply 200 ("no" +:+ nl +:+ nl)]) Scenario.servicePtr "ST-1" Scenario.world0).1
    = Returns res
    ∧ res = (None, None)
    ∧ outcome res = NotAuthenticated
    ∧ (∀ e, outcome res ≠ Failure e)
    ∧ (∀ a, outcome res ≠ Success a).
Proof.
  eapply (cas1_no_is_not_authenticated (H := Std.library) (H0 := Std.package)
            (Scenario.validator [Scenario.reply 200 ("no" +:+ nl +:+ nl)]) Scenario.servicePtr "ST-1" Scenario.world0).
  - eexists _, _. split; [vm_compute; reflexivity|]. split; [vm_compute; reflexivity|reflexivity].
  - vm_compute. reflexivity.
  - reflexivity.
  - reflexivity.
Defined.

Lemma cas1_yes_witness :
  let body := "yes" +:+ nl +:+ "alice" +:+ nl in
  (validateTicketCas1 (H := Std.library) (H0 := Std.package)
     (Scenario.validator [Scenario.reply 200 body]) Scenario.servicePtr "ST-1"
     Scenario.world0).1
  = Returns (Some (mkAuthenticationResponse "alice" ∅), None)
  ∧ slice body 4 (len body - 1) = Returns "alice"
  ∧ outcome (Some (mkAuthenticationResponse "alice" ∅), None)
    = Success (mkAuthenticationResponse "alice" ∅).
Proof.
  eapply (cas1_yes_is_success (H := Std.library) (H0 := Std.package)
            (Scenario.validator
               [Scenario.reply 200 ("yes" +:+ nl +:+ "alice" +:+ nl)])
            Scenario.servicePtr "ST-1" Scenario.world0).
  - eexists _, _. split; [vm_compute; reflexivity|].
    split; [vm_compute; reflexivity|reflexivity].
  - vm_compute. reflexivity.
  - reflexivity.
  - reflexivity.
Defined.

(** C2, as stated, fails: the body [maybe] followed by a newline is neither
    marker, and the fallback answers with a success for the user [e]
    instead of an error. *)
Lemma cas1_other_shape_counterexample :
  let body := "maybe" +:+ nl in
  let res :=
    (validateTicketCas1 (H := Std.library) (H0 := Std.package)
       (Scenario.validator [Scenario.reply 200 body]) Scenario.servicePtr "ST-1"
       Scenario.world0).1 in
  body ≠ "no" +:+ nl +:+ nl
  ∧ (∀ user, body ≠ "yes" +:+ nl +:+ user +:+ nl)
  ∧ res = Returns (Some (AuthenticationResponse_User "e"), None)
  ∧ ¬ ∃ e, res = Returns (None, Some e).
Proof.
  cbn zeta. split; [discriminate|]. split; [intros user; discriminate|].
  assert ((validateTicketCas1 (H := Std.library) (H0 := Std.package)
             (Scenario.validator [Scenario.reply 200 ("maybe" +:+ nl)])
             Scenario.servicePtr "ST-1" Scenario.world0).1
          = Returns (Some (AuthenticationResponse_User "e"), None)) as ->
    by (vm_compute; reflexivity).
  split; [reflexivity|]. intros [e He]. discriminate He.
Qed.

Lemma cas1_other_bodies_witness :
  (validateTicketCas1 (H := Std.library) (H0 := Std.package)
     (Scenario.validator [Scenario.reply 200 ("maybe" +:+ nl)])
     Scenario.servicePtr "ST-1" Scenario.world0).1
  = Returns (Some (AuthenticationResponse_User
                     (substring 4 (String.length ("maybe" +:+ nl) - 5)
                                ("maybe" +:+ nl))), None).
Proof.
  eapply (cas1_other_bodies_are_sliced (H := Std.library) (H0 := Std.package)
            (Scenario.validator [Scenario.reply 200 ("maybe" +:+ nl)])
            Scenario.servicePtr "ST-1" Scenario.world0).
  - eexists _, _. split; [vm_compute; reflexivity|].
    split; [vm_compute; reflexivity|reflexivity].
  - vm_compute. reflexivity.
  - reflexivity.
  - reflexivity.
  - discriminate.
  - vm_compute. discriminate.
Defined.

(** The empty body and the three bytes [yes] are such bodies. *)
Lemma cas1_short_body_witness :
  (validateTicketCas1 (H := Std.library) (H0 := Std.package)
     (Scenario.validator [Scenario.reply 200 EmptyString])
     Scenario.servicePtr "ST-1" Scenario.world0).1
  = Panics "runtime error: slice bounds out of range".
Proof.
  eapply (cas1_short_body_panics (H := Std.library) (H0 := Std.package)
            (Scenario.validator [Scenario.reply 200 EmptyString])
            Scenario.servicePtr "ST-1" Scenario.world0).
  - eexists _, _. split; [vm_compute; reflexivity|].
    split; [vm_compute; reflexivity|reflexivity].
  - vm_compute. reflexivity.
  - reflexivity.
  - reflexivity.
  - discriminate.
  - vm_compute. reflexivity.
Defined.

Example cas1_body_yes_panics :
  (validateTicketCas1 (H := Std.library) (H0 := Std.package)
     (Scenario.validator [Scenario.reply 200 "yes"])
     Scenario.servicePtr "ST-1" Scenario.world0).1
  = Panics "runtime error: slice bounds out of range".
Proof. vm_compute. reflexivity. Qed.

(** ** The claims about the CAS2 attempt and the fallback *)

Lemma requests_app (l1 l2 : list Call) :
  requests (l1 ++ l2) = requests l1 ++ requests l2.
Proof. apply omap_app. Qed.

Section cas2_claims.
Context `{Library} `{Package}.

(** The requests one validation sends: none, the CAS2 request alone, or
    the CAS2 request answered 404 followed by the CAS1 request. *)
Lemma ValidateTicket_requests v s t w :
  let w' := (ValidateTicket v s t w).2 in
  requests w'.(calls) = requests w.(calls)
  ∨ (∃ w1 r, cas2_request v s t w w1 r
             ∧ requests w'.(calls) = requests w.(calls) ++ [r])
  ∨ (∃ w1 r resp w2 r1,
       cas2_request v s t w w1 r
       ∧ answers v w1 r resp
       ∧ resp.(StatusCode) = StatusNotFound
       ∧ cas1_request v s t (after_Do w1 r) w2 r1
       ∧ requests w'.(calls) = requests w.(calls) ++ [r; r1]).
Proof.
  cbn zeta.
  destruct (ServiceValidateUrl v s t w) as [[[u [e|]]|msg] w1] eqn:Hurl.
  - left. unfold ValidateTicket. rewrite bind_run, Hurl. simpl.
    rewrite ServiceValidateUrl_shape in Hurl.
    by rewrite (validation_url_calls _ _ _ _ _ _ _ Hurl).
  - destruct (http_NewRequest "GET" u) as [r0|e] eqn:Hreq.
    2:{ left. unfold ValidateTicket. rewrite bind_run, Hurl, Hreq. simpl.
        rewrite ServiceValidateUrl_shape in Hurl.
        by rewrite (validation_url_calls _ _ _ _ _ _ _ Hurl). }
    set (r := Request_Header_Add r0 "User-Agent" userAgent).
    assert (cas2_request v s t w w1 r) as Hbuilt by (exists u, r0; done).
    pose proof (cas2_request_calls _ _ _ _ _ _ Hbuilt) as Hcalls.
    assert (requests (after_Do w1 r).(calls) = requests w.(calls) ++ [r])
      as Hone by (simpl; by rewrite requests_app, Hcalls).
    rewrite (ValidateTicket_run _ _ _ _ _ _ Hbuilt).
    destruct (client v _ _) as [resp|e] eqn:Hans.
    2:{ right; left. by exists w1, r. }
    destruct (StatusCode resp =? StatusNotFound) eqn:Hcode.
    + apply Z.eqb_eq in Hcode.
      destruct (validateTicketCas1_calls v s t (after_Do w1 r))
        as [Hsame|(w2 & r1 & Hbuilt1 & Hmore)].
      * right; left. exists w1, r. split; [done|]. by rewrite Hsame.
      * right; right. exists w1, r, resp, w2, r1.
        repeat split; try done.
        rewrite Hmore, requests_app, Hone, <- app_assoc. reflexivity.
    + right; left. exists w1, r. split; [done|].
      destruct (Body resp) as [body [e|]]; [done|].
      destruct (negb _); [done|].
      assert (requests (w1.(calls) ++ [CallDo r; CallParseServiceResponse body])
              = requests w.(calls) ++ [r]) as Hparse
        by (by rewrite requests_app, Hcalls).
      by destruct (ParseServiceResponse body) as [success [e|]].
  - left. unfold ValidateTicket. rewrite bind_run, Hurl. simpl.
    rewrite ServiceValidateUrl_shape in Hurl.
    by rewrite (validation_url_calls _ _ _ _ _ _ _ Hurl).
Qed.

(** C7. For every CAS2 response whose status is neither 200 nor 404 and
    whose body reads as [body], [ValidateTicket] returns no authentication
    response and the error [cas: validate ticket: ] followed by [body].
    The CAS2 request is the only call it makes: no CAS1 request is sent
    and [ParseServiceResponse] is not called. *)
Theorem cas2_other_status_is_protocol_error v s t w w1 r resp body :
  cas2_request v s t w w1 r →
  answers v w1 r resp →
  resp.(StatusCode) ≠ StatusOK →
  resp.(StatusCode) ≠ StatusNotFound →
  resp.(Body) = (body, None) →
  (ValidateTicket v s t w).1
  = Returns (None, Some (errorString ("cas: validate ticket: " +:+ body)))
  ∧ (ValidateTicket v s t w).2.(calls) = w.(calls) ++ [CallDo r].
Proof.
  intros Hbuilt Hans Hok Hnf Hbody.
  rewrite (ValidateTicket_run _ _ _ _ _ _ Hbuilt).
  unfold answers in Hans. rewrite Hans, Hbody.
  apply Z.eqb_neq in Hok, Hnf. rewrite Hnf, Hok. simpl.
  by rewrite (cas2_request_calls _ _ _ _ _ _ Hbuilt).
Qed.

(** C6. When the CAS2 request is answered 404, [ValidateTicket] continues
    as [validateTicketCas1] on the same service URL and ticket; whenever
    the CAS1 request for them can be built, the requests sent are the
    CAS2 request and then that one CAS1 request, and nothing else. In
    every run at most two requests are sent, and a second request is
    sent only after a 404 answer to the CAS2 request, and it is the CAS1
    request for the same service URL and ticket. *)
Theorem cas2_not_found_falls_back_once v s t w :
  (∀ w1 r resp,
     cas2_request v s t w w1 r →
     answers v w1 r resp →
     resp.(StatusCode) = StatusNotFound →
     ValidateTicket v s t w = validateTicketCas1 v s t (after_Do w1 r)
     ∧ (∀ w2 r1,
          cas1_request v s t (after_Do w1 r) w2 r1 →
          (ValidateTicket v s t w).2.(calls)
          = w.(calls) ++ [CallDo r; CallDo r1]))
  ∧ (∀ new,
       requests (ValidateTicket v s t w).2.(calls)
       = requests w.(calls) ++ new →
       (length new ≤ 2)%nat
       ∧ ((2 ≤ length new)%nat →
          ∃ w1 r resp w2 r1,
            cas2_request v s t w w1 r
            ∧ answers v w1 r resp
            ∧ resp.(StatusCode) = StatusNotFound
            ∧ cas1_request v s t (after_Do w1 r) w2 r1
            ∧ new = [r; r1])).
Proof.
  split.
  - intros w1 r resp Hbuilt Hans Hcode.
    rewrite (ValidateTicket_run _ _ _ _ _ _ Hbuilt).
    unfold answers in Hans. rewrite Hans, Hcode. simpl.
    split; [done|]. intros w2 r1 Hbuilt1.
    rewrite (validateTicketCas1_world _ _ _ _ _ _ Hbuilt1). simpl.
    rewrite (cas1_request_calls _ _ _ _ _ _ Hbuilt1). simpl.
    rewrite (cas2_request_calls _ _ _ _ _ _ Hbuilt), <- app_assoc.
    reflexivity.
  - intros new Hnew.
    destruct (ValidateTicket_requests v s t w)
      as [H0'|[(w1 & r & _ & H1)|(w1 & r & resp & w2 & r1 & Hb & Ha & Hc & Hb1 & H2)]];
      cbn zeta in *.
    + rewrite H0' in Hnew.
      rewrite <- (app_nil_r (requests (calls w))) in Hnew at 1.
      apply app_inv_head in Hnew. subst new. simpl. split; lia.
    + rewrite H1 in Hnew. apply app_inv_head in Hnew. subst new. simpl.
      split; lia.
    + rewrite H2 in Hnew. apply app_inv_head in Hnew. subst new. simpl.
      split; [lia|]. intros _. by exists w1, r, resp, w2, r1.
Qed.

End cas2_claims.

Lemma cas2_other_status_witness :
  (ValidateTicket (H := Std.library) (H0 := Std.package)
     (Scenario.validator [Scenario.reply 500 "boom"]) Scenario.servicePtr "ST-1"
     Scenario.world0).1
  = Returns (None, Some (errorString "cas: validate ticket: boom"))
  ∧ length (ValidateTicket (H := Std.library) (H0 := Std.package)
              (Scenario.validator [Scenario.reply 500 "boom"])
              Scenario.servicePtr "ST-1" Scenario.world0).2.(calls) = 1%nat.
Proof.
  edestruct (cas2_other_status_is_protocol_error
               (H := Std.library) (H0 := Std.package)
               (Scenario.validator [Scenario.reply 500 "boom"])
               Scenario.servicePtr "ST-1" Scenario.world0) as [Hres Hlog].
  - eexists _, _. split; [vm_compute; reflexivity|].
    split; [vm_compute; reflexivity|reflexivity].
  - vm_compute. reflexivity.
  - vm_compute. discriminate.
  - vm_compute. discriminate.
  - reflexivity.
  - split; [exact Hres|]. rewrite Hlog. reflexivity.
Defined.

Lemma cas2_not_found_witness :
  (λ r, Std.String_ r.(ReqURL))
    <$> requests (ValidateTicket (H := Std.library) (H0 := Std.package)
                    (Scenario.validator
                       [Scenario.reply 404 "not found";
                        Scenario.reply 200 ("yes" +:+ nl +:+ "alice" +:+ nl)])
                    Scenario.servicePtr "ST-1" Scenario.world0).2.(calls)
  = ["https://cas.example.com/cas/serviceValidate?service=https%3A%2F%2Fapp.example.com%2F&ticket=ST-1";
     "https://cas.example.com/cas/validate?service=https%3A%2F%2Fapp.example.com%2F&ticket=ST-1"].
Proof.
  destruct (cas2_not_found_falls_back_once
              (H := Std.library) (H0 := Std.package)
              (Scenario.validator
                 [Scenario.reply 404 "not found";
                  Scenario.reply 200 ("yes" +:+ nl +:+ "alice" +:+ nl)])
              Scenario.servicePtr "ST-1" Scenario.world0) as [Hfallback _].
  edestruct Hfallback as [_ Hlog].
  - eexists _, _. split; [vm_compute; reflexivity|].
    split; [vm_compute; reflexivity|reflexivity].
  - vm_compute. reflexivity.
  - reflexivity.
  - erewrite Hlog
      by (eexists _, _; split; [vm_compute; reflexivity|];
          split; [vm_compute; reflexivity|reflexivity]).
    vm_compute. reflexivity.
Defined.

(** ** The REST handler *)

Section handler_claims.
Context `{Library} `{Package}.
Context {St : Type}.
Implicit Types (ch : restClientHandler St) (st : Serving St).

Lemma Header_Get_Set (hd : Header) (key value : string) :
  Header_Get (Header_Set hd key value) key = value.
Proof.
  unfold Header_Get, Header_Set, Values_Get. by rewrite lookup_insert_eq.
Qed.

(** What both rejections write: the challenge header and the status 401. *)
Lemma challenge_written (w : ResponseWriter) :
  w.(RWStatus) = None →
  let w' := WriteHeader 401 (RW_Header_Set w "WWW-Authenticate" challenge) in
  w'.(RWStatus) = Some 401
  ∧ Header_Get w'.(RWHeader) "WWW-Authenticate" = challenge.
Proof.
  intros Hfresh. unfold WriteHeader, RW_Header_Set. cbn [RWStatus RWHeader].
  rewrite Hfresh. cbn [RWStatus RWHeader]. split; [done|].
  apply Header_Get_Set.
Qed.

Lemma call_run {A} (ev : HandlerCall) (m : M St A) st :
  call ev m st = ((m st.(rest)).1,
                  mkServing (m st.(rest)).2 (st.(made) ++ [ev])).
Proof. unfold call. by destruct (m _). Qed.

Lemma served_app (l1 l2 : list HandlerCall) :
  served (l1 ++ l2) = served l1 ++ served l2.
Proof. apply omap_app. Qed.

(** The chain never calls the wrapped handler. *)
Lemma authenticate_served ch user pass st :
  served (authenticate ch user pass st).2.(made) = served st.(made).
Proof.
  unfold authenticate. rewrite bind_run, call_run.
  destruct (RequestGrantingTicket _ _ _ _) as [[[tgt [e|]]|msg] st1];
    cbn [fst snd]; try (cbn; rewrite served_app, app_nil_r; done).
  rewrite bind_run, call_run.
  destruct (RequestServiceTicket _ _ _) as [[[tkt [e|]]|msg] st2];
    cbn [fst snd rest made];
    try (cbn; rewrite !served_app, !app_nil_r; done).
  rewrite call_run. cbn. rewrite !served_app, !app_nil_r. done.
Qed.

(** C9. For every request without an [Authorization] header, or with one
    that is not well-formed Basic credentials, written to a fresh writer,
    [ServeHTTP] sets the header [WWW-Authenticate] to the Basic challenge
    for the realm CAS Protected Area and writes the status 401; the state
    and the call log are left as they were, so neither the authentication
    chain nor the wrapped handler is called. *)
Theorem missing_credentials_are_challenged ch w r st :
  Header_Get r.(ReqHeader) "Authorization" = EmptyString
  ∨ (parseBasicAuth (Header_Get r.(ReqHeader) "Authorization")).2 = false →
  w.(RWStatus) = None →
  ∃ w',
    ServeHTTP ch w r st = (Returns w', st)
    ∧ w'.(RWStatus) = Some 401
    ∧ Header_Get w'.(RWHeader) "WWW-Authenticate" = challenge
    ∧ challenge = "Basic realm=" +:+ dquote +:+ "CAS Protected Area" +:+ dquote.
Proof.
  intros Hauth Hfresh.
  exists (WriteHeader 401 (RW_Header_Set w "WWW-Authenticate" challenge)).
  destruct (challenge_written w Hfresh) as [Hstatus Hheader].
  repeat split; try done.
  unfold ServeHTTP, BasicAuth.
  destruct Hauth as [-> | Hbad]; [reflexivity|].
  destruct (String.eqb _ _); [reflexivity|].
  destruct (parseBasicAuth _) as [[user pass] ok]. simpl in Hbad. subst ok.
  reflexivity.
Qed.

(** The part of C1 the code has: an error from any stage of the chain is
    answered with the challenge and the wrapped handler is not called. *)
Lemma chain_error_is_challenged ch w r st user pass res e st' :
  BasicAuth r = (user, pass, true) →
  authenticate ch user pass st = (Returns (res, Some e), st') →
  w.(RWStatus) = None →
  ∃ w',
    ServeHTTP ch w r st = (Returns w', st')
    ∧ w'.(RWStatus) = Some 401
    ∧ Header_Get w'.(RWHeader) "WWW-Authenticate" = challenge
    ∧ served st'.(made) = served st.(made).
Proof.
  intros Hauth Hchain Hfresh.
  exists (WriteHeader 401 (RW_Header_Set w "WWW-Authenticate" challenge)).
  destruct (challenge_written w Hfresh) as [Hstatus Hheader].
  repeat split; try done.
  - unfold ServeHTTP. rewrite Hauth. cbn [negb].
    rewrite bind_run, Hchain. reflexivity.
  - pose proof (authenticate_served ch user pass st) as Hserved.
    by rewrite Hchain in Hserved.
Qed.

(** C1 fails on the code. For every request with well-formed credentials
    whose chain succeeds in both ticket requests and whose validation
    returns the pair [(nil, nil)], the outcome NotAuthenticated, there is no
    error for [ServeHTTP] to test: it attaches a nil authentication
    response and calls the wrapped handler on the writer as it received
    it, without challenge header and without status 401. *)
Theorem not_authenticated_reaches_wrapped_handler
    ch (w : ResponseWriter) (r : Request) st (user pass tgt tkt : string)
    (n1 n2 n3 : St) :
  BasicAuth r = (user, pass, true) →
  ch.(c).(RequestGrantingTicket) user pass st.(rest)
  = (Returns (tgt, None), n1) →
  ch.(c).(RequestServiceTicket) tgt n1 = (Returns (tkt, None), n2) →
  ch.(c).(ValidateServiceTicket) tkt n2 = (Returns (None, None), n3) →
  let r' := setAuthenticationResponse r None in
  outcome (None, None) = NotAuthenticated
  ∧ ServeHTTP ch w r st
    = ((ch.(h) w r' n3).1,
       mkServing (ch.(h) w r' n3).2
         (st.(made) ++ [CallRequestGrantingTicket user pass;
                        CallRequestServiceTicket tgt;
                        CallValidateServiceTicket tkt;
                        CallServeHTTP w r']))
  ∧ served (ServeHTTP ch w r st).2.(made) = served st.(made) ++ [(w, r')].
Proof.
  intros Hauth Hgrant Hticket Hvalidate r'.
  assert (authenticate ch user pass st
          = (Returns (None, None),
             mkServing n3
               (st.(made) ++ [CallRequestGrantingTicket user pass;
                              CallRequestServiceTicket tgt;
                              CallValidateServiceTicket tkt]))) as Hchain.
  { unfold authenticate.
    rewrite bind_run, call_run, Hgrant. cbn [fst snd].
    rewrite bind_run, call_run. cbn [rest made]. rewrite Hticket. cbn [fst snd].
    rewrite call_run. cbn [rest made]. rewrite Hvalidate. cbn [fst snd].
    by rewrite <- !app_assoc. }
  assert (ServeHTTP ch w r st
          = ((ch.(h) w r' n3).1,
             mkServing (ch.(h) w r' n3).2
               (st.(made) ++ [CallRequestGrantingTicket user pass;
                              CallRequestServiceTicket tgt;
                              CallValidateServiceTicket tkt;
                              CallServeHTTP w r']))) as Hserve.
  { unfold ServeHTTP. rewrite Hauth. cbn [negb].
    rewrite bind_run, Hchain, call_run. cbn [rest made].
    by rewrite <- app_assoc. }
  split; [done|]. split; [done|].
  rewrite Hserve. cbn [snd made]. by rewrite served_app.
Qed.

End handler_claims.

Lemma missing_credentials_witness :
  ∃ w',
    ServeHTTP (H := Std.library) (H0 := Std.package)
      (Scenario.handler []) Scenario.blank (Scenario.inbound None)
      Scenario.serving0
    = (Returns w', Scenario.serving0)
    ∧ w'.(RWStatus) = Some 401
    ∧ Header_Get (H := Std.library) w'.(RWHeader) "WWW-Authenticate" = challenge
    ∧ challenge = "Basic realm=" +:+ dquote +:+ "CAS Protected Area" +:+ dquote.
Proof.
  apply (missing_credentials_are_challenged (H := Std.library)
           (H0 := Std.package) (Scenario.handler []) Scenario.blank
           (Scenario.inbound None) Scenario.serving0).
  - left. vm_compute. reflexivity.
  - reflexivity.
Defined.

(** The CAS1 answer [no] behind a 404 of the CAS2 endpoint is such a run:
    the validator of [service_validate.go] returns [(nil, nil)] and the
    wrapped handler answers 200. *)
Lemma not_authenticated_witness :
  let script := [Scenario.reply 404 "not found";
                 Scenario.reply 200 ("no" +:+ nl +:+ nl)] in
  let r := Scenario.inbound (Some "Basic YWxpY2U6c2VjcmV0") in
  let run := ServeHTTP (H := Std.library) (H0 := Std.package)
               (Scenario.handler script) Scenario.blank r Scenario.serving0 in
  run.1 = Returns (mkResponseWriter ∅ (Some 200))
  ∧ served run.2.(made)
    = [(Scenario.blank,
        mkRequest r.(Method) r.(ReqURL) r.(ReqHeader) (Some None))].
Proof.
  cbn zeta.
  edestruct (not_authenticated_reaches_wrapped_handler
               (H := Std.library) (H0 := Std.package)
               (Scenario.handler [Scenario.reply 404 "not found";
                                  Scenario.reply 200 ("no" +:+ nl +:+ nl)])
               Scenario.blank
               (Scenario.inbound (Some "Basic YWxpY2U6c2VjcmV0"))
               Scenario.serving0)
    as (_ & Hrun & Hserved).
  - vm_compute. reflexivity.
  - reflexivity.
  - reflexivity.
  - vm_compute. reflexivity.
  - rewrite Hserved, Hrun. split; vm_compute; reflexivity.
Defined.

(** ** The two URL builders *)

Section url_claims.
Context `{Library} `{Package}.




(** C10. For every validator, service URL and ticket whose pointers are
    nil or address a struct, after [ServiceValidateUrl] and after
    [ValidateUrl] the struct behind the validator's [casURL] and the
    struct behind the service URL are what they were: each call leaves
    the structs of the store in place, adding new ones at most, and
    makes no call. *)
Theorem url_builders_leave_inputs_unchanged v s t w :
  valid w v.(casURL) →
  valid w s →
  let w2 := (ServiceValidateUrl v s t w).2 in
  let w1 := (ValidateUrl v s t w).2 in
  (deref w2 v.(casURL) = deref w v.(casURL) ∧ deref w2 s = deref w s)
  ∧ (deref w1 v.(casURL) = deref w v.(casURL) ∧ deref w1 s = deref w s)
  ∧ (∃ fresh, w2 = mkWorld (w.(urls) ++ fresh) w.(calls))
  ∧ (∃ fresh, w1 = mkWorld (w.(urls) ++ fresh) w.(calls)).
Proof.
  intros Hcas Hs. cbn zeta.
  rewrite ServiceValidateUrl_shape, ValidateUrl_shape.
  destruct (validation_url_frame "serviceValidate" v s t w) as [f2 H2].
  destruct (validation_url_frame "validate" v s t w) as [f1 H1].
  rewrite H2, H1.
  repeat split; try (by eapply frame_deref); by eexists.
Qed.

End url_claims.


Lemma url_builders_witness :
  let w2 := (ServiceValidateUrl (H := Std.library) (H0 := Std.package)
               (Scenario.validator []) Scenario.servicePtr "ST-1"
               Scenario.world0).2 in
  let w1 := (ValidateUrl (H := Std.library) (H0 := Std.package)
               (Scenario.validator []) Scenario.servicePtr "ST-1"
               Scenario.world0).2 in
  (deref w2 Scenario.casPtr = Some Scenario.casBase
   ∧ deref w2 Scenario.servicePtr = Some Scenario.service)
  ∧ (deref w1 Scenario.casPtr = Some Scenario.casBase
     ∧ deref w1 Scenario.servicePtr = Some Scenario.service).
Proof.
  destruct (url_builders_leave_inputs_unchanged
              (H := Std.library) (H0 := Std.package)
              (Scenario.validator []) Scenario.servicePtr "ST-1"
              Scenario.world0)
    as (Hcas2 & Hcas1 & _); [simpl; lia|simpl; lia|].
  cbn zeta. split; [exact Hcas2|exact Hcas1].
Defined.

(** ** More about rest_handler.go *)

Section handler_more.
Context `{Library} `{Package}.
Context {St : Type}.
Implicit Types (ch : restClientHandler St) (st : Serving St).

(** The chain, stage by stage. *)
Lemma authenticate_run ch (user pass : string) st :
  authenticate ch user pass st =
  let G := CallRequestGrantingTicket user pass in
  match ch.(c).(RequestGrantingTicket) user pass st.(rest) with
  | (Returns (tgt, None), n1) =>
      let S := CallRequestServiceTicket tgt in
      match ch.(c).(RequestServiceTicket) tgt n1 with
      | (Returns (tkt, None), n2) =>
          ((ch.(c).(ValidateServiceTicket) tkt n2).1,
           mkServing (ch.(c).(ValidateServiceTicket) tkt n2).2
             (st.(made) ++ [G; S; CallValidateServiceTicket tkt]))
      | (Returns (_, Some e), n2) =>
          (Returns (None, Some e), mkServing n2 (st.(made) ++ [G; S]))
      | (Panics msg, n2) => (Panics msg, mkServing n2 (st.(made) ++ [G; S]))
      end
  | (Returns (_, Some e), n1) =>
      (Returns (None, Some e), mkServing n1 (st.(made) ++ [G]))
  | (Panics msg, n1) => (Panics msg, mkServing n1 (st.(made) ++ [G]))
  end.
Proof.
  unfold authenticate. rewrite bind_run, call_run.
  destruct (RequestGrantingTicket _ _ _ _) as [[[tgt [e|]]|msg] n1];
    cbn [fst snd]; try reflexivity.
  rewrite bind_run, call_run. cbn [rest made].
  destruct (RequestServiceTicket _ _ _) as [[[tkt [e|]]|msg] n2];
    cbn [fst snd]; rewrite <- ?app_assoc; try reflexivity.
  rewrite call_run. cbn [rest made]. by rewrite <- app_assoc.
Qed.

(** X1. Whenever [authenticate] returns without error, all three stages
    ran, in order and once each, none of them returned an error, the
    granting ticket of the first stage went to the second, the service
    ticket of the second went to the third, and the response returned is
    the one of [ValidateServiceTicket]. *)
Theorem authenticate_success_means_full_chain
    ch (user pass : string) st (a : option AuthenticationResponse) st' :
  authenticate ch user pass st = (Returns (a, None), st') →
  ∃ tgt tkt n1 n2,
    ch.(c).(RequestGrantingTicket) user pass st.(rest)
    = (Returns (tgt, None), n1)
    ∧ ch.(c).(RequestServiceTicket) tgt n1 = (Returns (tkt, None), n2)
    ∧ ch.(c).(ValidateServiceTicket) tkt n2 = (Returns (a, None), st'.(rest))
    ∧ st'.(made)
      = st.(made) ++ [CallRequestGrantingTicket user pass;
                      CallRequestServiceTicket tgt;
                      CallValidateServiceTicket tkt].
Proof.
  rewrite authenticate_run. cbn zeta.
  destruct (RequestGrantingTicket _ _ _ _) as [[[tgt [e|]]|msg] n1] eqn:Hgrant;
    try discriminate.
  destruct (RequestServiceTicket _ _ _) as [[[tkt [e|]]|msg] n2] eqn:Hticket;
    try discriminate.
  destruct (ValidateServiceTicket _ _ _) as [res n3] eqn:Hvalidate.
  cbn [fst snd]. intros [= -> <-].
  exists tgt, tkt, n1, n2. by rewrite Hticket, Hvalidate.
Qed.

(** X2. [authenticate] stops at the first stage that returns an error: an
    error of the granting-ticket request is returned with a nil response
    and no other stage is called; an error of the service-ticket request
    is returned with a nil response and the validation is not called. The
    ticket value a failing stage returns beside its error is not used. *)
Theorem authenticate_stops_at_first_error ch (user pass : string) st :
  (∀ tgt e n1,
     ch.(c).(RequestGrantingTicket) user pass st.(rest)
     = (Returns (tgt, Some e), n1) →
     authenticate ch user pass st
     = (Returns (None, Some e),
        mkServing n1 (st.(made) ++ [CallRequestGrantingTicket user pass])))
  ∧ (∀ tgt n1 tkt e n2,
       ch.(c).(RequestGrantingTicket) user pass st.(rest)
       = (Returns (tgt, None), n1) →
       ch.(c).(RequestServiceTicket) tgt n1 = (Returns (tkt, Some e), n2) →
       authenticate ch user pass st
       = (Returns (None, Some e),
          mkServing n2 (st.(made) ++ [CallRequestGrantingTicket user pass;
                                     CallRequestServiceTicket tgt]))).
Proof.
  split.
  - intros tgt e n1 Hgrant. by rewrite authenticate_run, Hgrant.
  - intros tgt n1 tkt e n2 Hgrant Hticket.
    by rewrite authenticate_run, Hgrant, Hticket.
Qed.

(** X3. For a request with well-formed credentials whose chain returns an
    authentication response and no error, [ServeHTTP] writes nothing
    itself: it calls the wrapped handler exactly once, on the writer as
    received and on the request with that response attached, and the
    writer it leaves is the wrapped handler's. *)
Theorem authenticated_request_is_forwarded
    ch (w : ResponseWriter) (r : Request) st (user pass : string)
    (a : AuthenticationResponse) st' :
  BasicAuth r = (user, pass, true) →
  authenticate ch user pass st = (Returns (Some a, None), st') →
  let r' := setAuthenticationResponse r (Some a) in
  ServeHTTP ch w r st
  = ((ch.(h) w r' st'.(rest)).1,
     mkServing (ch.(h) w r' st'.(rest)).2 (st'.(made) ++ [CallServeHTTP w r']))
  ∧ served (ServeHTTP ch w r st).2.(made) = served st.(made) ++ [(w, r')].
Proof.
  intros Hauth Hchain r'.
  assert (ServeHTTP ch w r st
          = ((ch.(h) w r' st'.(rest)).1,
             mkServing (ch.(h) w r' st'.(rest)).2
               (st'.(made) ++ [CallServeHTTP w r']))) as Hserve.
  { unfold ServeHTTP. rewrite Hauth. cbn [negb].
    rewrite bind_run, Hchain, call_run. reflexivity. }
  split; [done|]. rewrite Hserve. cbn [snd made].
  rewrite served_app. f_equal.
  pose proof (authenticate_served ch user pass st) as Hserved.
  by rewrite Hchain in Hserved.
Qed.

(** X4. The answer to a failed chain carries no detail of the failure:
    whatever error the chain returns, and whatever response comes with it,
    the writer [ServeHTTP] leaves is the writer it leaves for a request
    without credentials, and the wrapped handler is not called. *)
Theorem chain_error_is_not_exposed
    ch (w : ResponseWriter) (r r0 : Request) st st0 (user pass : string)
    (res : option AuthenticationResponse) (e : error) st' :
  BasicAuth r = (user, pass, true) →
  authenticate ch user pass st = (Returns (res, Some e), st') →
  (BasicAuth r0).2 = false →
  (ServeHTTP ch w r st).1 = (ServeHTTP ch w r0 st0).1
  ∧ (ServeHTTP ch w r st).1
    = Returns (WriteHeader 401 (RW_Header_Set w "WWW-Authenticate" challenge))
  ∧ served (ServeHTTP ch w r st).2.(made) = served st.(made).
Proof.
  intros Hauth Hchain Hnone.
  assert (ServeHTTP ch w r st
          = (Returns (WriteHeader 401
                        (RW_Header_Set w "WWW-Authenticate" challenge)), st'))
    as Hserve.
  { unfold ServeHTTP. rewrite Hauth. cbn [negb].
    by rewrite bind_run, Hchain. }
  assert ((ServeHTTP ch w r0 st0).1
          = Returns (WriteHeader 401
                       (RW_Header_Set w "WWW-Authenticate" challenge)))
    as Hplain.
  { unfold ServeHTTP. destruct (BasicAuth r0) as [[u0 p0] ok0].
    simpl in Hnone. by subst ok0. }
  rewrite Hserve, Hplain. repeat split.
  pose proof (authenticate_served ch user pass st) as Hserved.
  by rewrite Hchain in Hserved.
Qed.

(** X5. In every run of [ServeHTTP] the calls made are an initial part of
    the sequence granting ticket, service ticket, validation, wrapped
    handler: no stage is called twice or out of order, and the wrapped
    handler is called at most once, only after a validation that returned
    no error, on the writer as received and on the request with the
    validation's response attached. *)
Theorem ServeHTTP_call_order ch (w : ResponseWriter) (r : Request) st :
  ∃ ext,
    (ServeHTTP ch w r st).2.(made) = st.(made) ++ ext
    ∧ (ext = []
       ∨ (∃ user pass, ext = [CallRequestGrantingTicket user pass])
       ∨ (∃ user pass tgt,
            ext = [CallRequestGrantingTicket user pass;
                   CallRequestServiceTicket tgt])
       ∨ (∃ user pass tgt tkt,
            ext = [CallRequestGrantingTicket user pass;
                   CallRequestServiceTicket tgt;
                   CallValidateServiceTicket tkt])
       ∨ (∃ user pass tgt tkt n2 a n3,
            ch.(c).(ValidateServiceTicket) tkt n2 = (Returns (a, None), n3)
            ∧ ext = [CallRequestGrantingTicket user pass;
                     CallRequestServiceTicket tgt;
                     CallValidateServiceTicket tkt;
                     CallServeHTTP w (setAuthenticationResponse r a)])).
Proof.
  unfold ServeHTTP.
  destruct (BasicAuth r) as [[user pass] [|]]; cbn [negb].
  2:{ exists []. rewrite app_nil_r. by split; [|left]. }
  rewrite bind_run, authenticate_run. cbn zeta.
  destruct (RequestGrantingTicket _ _ _ _) as [[[tgt [e|]]|msg] n1].
  - eexists. split; [reflexivity|]. right; left. by exists user, pass.
  - destruct (RequestServiceTicket _ _ _) as [[[tkt [e|]]|msg] n2].
    + eexists. split; [reflexivity|]. right; right; left.
      by exists user, pass, tgt.
    + destruct (ValidateServiceTicket _ _ _) as [[[a [e|]]|msg] n3] eqn:Hv;
        cbn [fst snd].
      * eexists. split; [reflexivity|]. right; right; right; left.
        by exists user, pass, tgt, tkt.
      * rewrite call_run. cbn [snd made rest]. rewrite <- app_assoc.
        eexists. split; [reflexivity|]. right; right; right; right.
        by exists user, pass, tgt, tkt, n2, a, n3.
      * eexists. split; [reflexivity|]. right; right; right; left.
        by exists user, pass, tgt, tkt.
    + eexists. split; [reflexivity|]. right; right; left.
      by exists user, pass, tgt.
  - eexists. split; [reflexivity|]. right; left. by exists user, pass.
Qed.

End handler_more.

Lemma authenticate_success_witness :
  let ch := Scenario.handler [Scenario.reply 200 Cases.bobDocument] in
  let st' := (authenticate ch
                "alice" "secret" Scenario.serving0).2 in
  ∃ tgt tkt n1 n2,
    ch.(c).(RequestGrantingTicket) "alice" "secret" Scenario.world0
    = (Returns (tgt, None), n1)
    ∧ ch.(c).(RequestServiceTicket) tgt n1 = (Returns (tkt, None), n2)
    ∧ ch.(c).(ValidateServiceTicket) tkt n2
      = (Returns (Some Cases.bob, None), st'.(rest))
    ∧ st'.(made)
      = [CallRequestGrantingTicket "alice" "secret";
         CallRequestServiceTicket tgt;
         CallValidateServiceTicket tkt].
Proof.
  cbn zeta.
  apply (authenticate_success_means_full_chain
           (Scenario.handler [Scenario.reply 200 Cases.bobDocument])
           "alice" "secret" Scenario.serving0 (Some Cases.bob)).
  vm_compute. reflexivity.
Defined.

Lemma authenticate_stops_witness :
  (authenticate
     (Cases.handlerOf Cases.grantFails) "alice" "secret" Scenario.serving0)
  = (Returns (None, Some (errorString "cas: 401 Unauthorized")),
     mkServing Scenario.world0 [CallRequestGrantingTicket "alice" "secret"])
  ∧ (authenticate
       (Cases.handlerOf Cases.ticketFails) "alice" "secret" Scenario.serving0)
    = (Returns (None, Some (errorString "cas: 404 Not Found")),
       mkServing Scenario.world0
         [CallRequestGrantingTicket "alice" "secret";
          CallRequestServiceTicket "TGT-1"]).
Proof.
  split.
  - apply (proj1 (authenticate_stops_at_first_error
                    (Cases.handlerOf Cases.grantFails) "alice" "secret"
                    Scenario.serving0) EmptyString).
    reflexivity.
  - apply (proj2 (authenticate_stops_at_first_error
                    (Cases.handlerOf Cases.ticketFails) "alice" "secret"
                    Scenario.serving0) "TGT-1" Scenario.world0 EmptyString);
      reflexivity.
Defined.

Lemma authenticated_request_witness :
  let ch := Scenario.handler [Scenario.reply 200 Cases.bobDocument] in
  let run := ServeHTTP (H := Std.library) (H0 := Std.package) ch
               Scenario.blank Cases.alice Scenario.serving0 in
  run.1 = Returns (mkResponseWriter ∅ (Some 200))
  ∧ served run.2.(made)
    = [(Scenario.blank,
        mkRequest Cases.alice.(Method) Cases.alice.(ReqURL)
                  Cases.alice.(ReqHeader) (Some (Some Cases.bob)))].
Proof.
  cbn zeta.
  edestruct (authenticated_request_is_forwarded
               (H := Std.library) (H0 := Std.package)
               (Scenario.handler [Scenario.reply 200 Cases.bobDocument])
               Scenario.blank Cases.alice Scenario.serving0
               "alice" "secret" Cases.bob) as [Hrun Hserved].
  - vm_compute. reflexivity.
  - vm_compute. reflexivity.
  - rewrite Hserved, Hrun. split; vm_compute; reflexivity.
Defined.

Lemma chain_error_witness :
  (ServeHTTP (H := Std.library) (H0 := Std.package)
     (Cases.handlerOf Cases.grantFails) Scenario.blank Cases.alice
     Scenario.serving0).1
  = (ServeHTTP (H := Std.library) (H0 := Std.package)
       (Cases.handlerOf Cases.grantFails) Scenario.blank
       (Scenario.inbound None) Scenario.serving0).1
  ∧ served (ServeHTTP (H := Std.library) (H0 := Std.package)
              (Cases.handlerOf Cases.grantFails) Scenario.blank Cases.alice
              Scenario.serving0).2.(made) = [].
Proof.
  edestruct (chain_error_is_not_exposed
               (H := Std.library) (H0 := Std.package)
               (Cases.handlerOf Cases.grantFails) Scenario.blank Cases.alice
               (Scenario.inbound None) Scenario.serving0 Scenario.serving0
               "alice" "secret") as (Hsame & _ & Hserved).
  - vm_compute. reflexivity.
  - vm_compute. reflexivity.
  - vm_compute. reflexivity.
  - split; [exact Hsame|exact Hserved].
Defined.

(** ** More about service_validate.go *)

Section validator_more.
Context `{Library} `{Package}.

(** A builder adds at most one struct to the store. *)
Lemma validation_url_frame_one endpoint v s t w :
  ∃ extra,
    (validation_url endpoint v s t w).2
    = mkWorld (w.(urls) ++ extra) w.(calls)
    ∧ (length extra ≤ 1)%nat.
Proof.
  unfold validation_url, URL_Parse.
  rewrite bind_run.
  destruct (deref w v.(casURL)) as [base|] eqn:Hbase.
  2:{ exists []. rewrite app_nil_r. split; [|simpl; lia].
      destruct v.(casURL) as [l|]; simpl in *; [rewrite Hbase|];
        by destruct w. }
  rewrite (load_deref _ _ _ Hbase).
  destruct (url_Parse _) as [ref|e].
  2:{ exists []. rewrite app_nil_r. split; [by destruct w|simpl; lia]. }
  rewrite !bind_run, (load_deref _ _ _ Hbase).
  set (u := URL_ResolveReference base ref).
  rewrite (bind_run (alloc u)).
  change (alloc u w) with
    (Returns (Some (length w.(urls))), mkWorld (w.(urls) ++ [u]) w.(calls)).
  cbn [mret M_ret].
  rewrite bind_run, (load_deref _ _ _ (deref_fresh _ u _)).
  rewrite bind_run.
  destruct (deref (mkWorld (w.(urls) ++ [u]) w.(calls)) s) as [service|] eqn:Hs.
  - rewrite (load_deref _ _ _ Hs), bind_run, store_fresh.
    rewrite bind_run, (load_deref _ _ _ (deref_fresh _ _ _)).
    eexists [_]. split; [reflexivity|simpl; lia].
  - exists [u]. split; [|simpl; lia].
    destruct s as [l|]; simpl in *; [rewrite Hs|]; reflexivity.
Qed.

(** The world and the result of the fallback, whatever happens in it. *)
Lemma validateTicketCas1_shape v s t w :
  ∃ fresh new,
    (validateTicketCas1 v s t w).2
    = mkWorld (w.(urls) ++ fresh) (w.(calls) ++ new)
    ∧ (length fresh ≤ 1)%nat
    ∧ (new = [] ∨ ∃ r, new = [CallDo r])
    ∧ ∀ a e, (validateTicketCas1 v s t w).1 = Returns (a, Some e) → a = None.
Proof.
  destruct (validation_url_frame_one "validate" v s t w) as (fresh & Hw & Hlen).
  rewrite <- ValidateUrl_shape in Hw.
  destruct (ValidateUrl v s t w) as [[[u [e|]]|msg] w1] eqn:Hurl;
    simpl in Hw; subst w1.
  - exists fresh, []. unfold validateTicketCas1. rewrite bind_run, Hurl.
    rewrite app_nil_r. repeat split; try done; [by left|].
    by intros a e' [= <- _].
  - destruct (http_NewRequest "GET" u) as [r0|e] eqn:Hreq.
    + set (r := Request_Header_Add r0 "User-Agent" userAgent).
      assert (cas1_request v s t w (mkWorld (w.(urls) ++ fresh) w.(calls)) r)
        as Hbuilt by (exists u, r0; done).
      exists fresh, [CallDo r].
      rewrite (validateTicketCas1_run _ _ _ _ _ _ Hbuilt).
      destruct (client v _ _) as [resp|e];
        [|repeat split; try done; [right; by exists r|by intros a e' [= <- _]]].
      destruct (Body resp) as [body [e|]];
        [repeat split; try done; [right; by exists r|by intros a e' [= <- _]]|].
      destruct (negb _);
        [repeat split; try done; [right; by exists r|by intros a e' [= <- _]]|].
      destruct (String.eqb _ _);
        [repeat split; try done; right; by exists r|].
      destruct (slice _ _ _);
        repeat split; try done; right; by exists r.
    + exists fresh, []. unfold validateTicketCas1.
      rewrite bind_run, Hurl, Hreq. rewrite app_nil_r.
      repeat split; try done; [by left|]. by intros a e' [= <- _].
  - exists fresh, []. unfold validateTicketCas1. rewrite bind_run, Hurl.
    rewrite app_nil_r. repeat split; try done. by left.
Qed.

(** X6. In the CAS1 fallback the status is tested before the body is
    looked at: for every response whose status is not 200 and whose body
    reads as [body], also when [body] is one of the two markers,
    [validateTicketCas1] returns no response and the error
    [cas: validate ticket: ] followed by [body]; the CAS1 request is the
    only call it makes. *)
Theorem cas1_other_status_is_protocol_error v s t w w1 r resp body :
  cas1_request v s t w w1 r →
  answers v w1 r resp →
  resp.(StatusCode) ≠ StatusOK →
  resp.(Body) = (body, None) →
  (validateTicketCas1 v s t w).1
  = Returns (None, Some (errorString ("cas: validate ticket: " +:+ body)))
  ∧ (validateTicketCas1 v s t w).2.(calls) = w.(calls) ++ [CallDo r].
Proof.
  intros Hbuilt Hans Hok Hbody.
  rewrite (validateTicketCas1_run _ _ _ _ _ _ Hbuilt).
  unfold answers in Hans. rewrite Hans, Hbody.
  apply Z.eqb_neq in Hok. rewrite Hok. simpl.
  by rewrite (cas1_request_calls _ _ _ _ _ _ Hbuilt).
Qed.

(** X7. Once the CAS2 request is sent, a failure of the exchange is
    returned as it is, with a nil response: the error of the client, or,
    for any status other than 404 (200 included), the error of reading
    the body. In both cases the CAS2 request is the only call: there is no
    fallback and [ParseServiceResponse] is not called. *)
Theorem cas2_failed_exchange_is_returned v s t w w1 r (e : error) :
  cas2_request v s t w w1 r →
  v.(client) w1.(calls) r = Err e
  ∨ (∃ resp data,
       answers v w1 r resp
       ∧ resp.(StatusCode) ≠ StatusNotFound
       ∧ resp.(Body) = (data, Some e)) →
  (ValidateTicket v s t w).1 = Returns (None, Some e)
  ∧ (ValidateTicket v s t w).2.(calls) = w.(calls) ++ [CallDo r].
Proof.
  intros Hbuilt Hfail.
  rewrite (ValidateTicket_run _ _ _ _ _ _ Hbuilt).
  pose proof (cas2_request_calls _ _ _ _ _ _ Hbuilt) as Hcalls.
  destruct Hfail as [Herr|(resp & data & Hans & Hcode & Hbody)].
  - rewrite Herr. simpl. by rewrite Hcalls.
  - unfold answers in Hans. rewrite Hans, Hbody.
    apply Z.eqb_neq in Hcode. rewrite Hcode. simpl. by rewrite Hcalls.
Qed.

(** X8. When the path joined for an endpoint does not parse, the URL
    builder returns the empty string and the parse error, and the
    validation returns a nil response and that error; the service URL is
    not dereferenced, no struct is allocated and nothing is sent: the
    world is left as it was. *)
Theorem unparsable_endpoint_sends_nothing v s t w base :
  deref w v.(casURL) = Some base →
  (∀ e, url_Parse (path_Join [base.(Path); "serviceValidate"]) = Err e →
        ServiceValidateUrl v s t w = (Returns (EmptyString, Some e), w)
        ∧ ValidateTicket v s t w = (Returns (None, Some e), w))
  ∧ (∀ e, url_Parse (path_Join [base.(Path); "validate"]) = Err e →
          ValidateUrl v s t w = (Returns (EmptyString, Some e), w)
          ∧ validateTicketCas1 v s t w = (Returns (None, Some e), w)).
Proof.
  intros Hbase.
  assert (∀ endpoint e,
            url_Parse (path_Join [base.(Path); endpoint]) = Err e →
            validation_url endpoint v s t w
            = (Returns (EmptyString, Some e), w)) as Hbuilder.
  { intros endpoint e Hparse. unfold validation_url, URL_Parse.
    rewrite bind_run, (load_deref _ _ _ Hbase), Hparse. by destruct w. }
  split; intros e Hparse.
  - pose proof (Hbuilder _ _ Hparse) as Hurl.
    rewrite <- ServiceValidateUrl_shape in Hurl. split; [done|].
    unfold ValidateTicket. by rewrite bind_run, Hurl.
  - pose proof (Hbuilder _ _ Hparse) as Hurl.
    rewrite <- ValidateUrl_shape in Hurl. split; [done|].
    unfold validateTicketCas1. by rewrite bind_run, Hurl.
Qed.

(** X9. For a CAS2 response with status 200 whose body reads as [body],
    [ValidateTicket] calls [ParseServiceResponse] once, on [body], after
    the CAS2 request, and makes no other call. It returns the parser's
    response when the parser returns no error, and the parser's error with
    a nil response otherwise, dropping any response the parser returned
    beside the error. *)
Theorem cas2_ok_is_parsed v s t w w1 r resp body :
  cas2_request v s t w w1 r →
  answers v w1 r resp →
  resp.(StatusCode) = StatusOK →
  resp.(Body) = (body, None) →
  (ValidateTicket v s t w).1
  = Returns (match ParseServiceResponse body with
             | (_, Some e) => (None, Some e)
             | (success, None) => (success, None)
             end)
  ∧ (ValidateTicket v s t w).2.(calls)
    = w.(calls) ++ [CallDo r; CallParseServiceResponse body].
Proof.
  intros Hbuilt Hans Hcode Hbody.
  rewrite (ValidateTicket_run _ _ _ _ _ _ Hbuilt).
  unfold answers in Hans. rewrite Hans, Hbody, Hcode. simpl.
  rewrite (cas2_request_calls _ _ _ _ _ _ Hbuilt).
  by destruct (ParseServiceResponse body) as [success [e|]].
Qed.

End validator_more.

Section validator_shape.
Context `{Library} `{Package}.

(** The world and the result of a validation, whatever happens in it. *)
Lemma ValidateTicket_shape v s t w :
  ∃ fresh new,
    (ValidateTicket v s t w).2
    = mkWorld (w.(urls) ++ fresh) (w.(calls) ++ new)
    ∧ (length fresh ≤ 2)%nat
    ∧ (new = []
       ∨ (∃ r, new = [CallDo r])
       ∨ (∃ r body, new = [CallDo r; CallParseServiceResponse body])
       ∨ (∃ r r1, new = [CallDo r; CallDo r1]))
    ∧ ∀ a e, (ValidateTicket v s t w).1 = Returns (a, Some e) → a = None.
Proof.
  destruct (validation_url_frame_one "serviceValidate" v s t w)
    as (fresh & Hw & Hlen).
  rewrite <- ServiceValidateUrl_shape in Hw.
  destruct (ServiceValidateUrl v s t w) as [[[u [e|]]|msg] w1] eqn:Hurl;
    simpl in Hw; subst w1.
  - exists fresh, []. unfold ValidateTicket. rewrite bind_run, Hurl.
    rewrite app_nil_r. repeat split; try done; [lia|by left|].
    by intros a e' [= <- _].
  - destruct (http_NewRequest "GET" u) as [r0|e] eqn:Hreq.
    2:{ exists fresh, []. unfold ValidateTicket.
        rewrite bind_run, Hurl, Hreq. rewrite app_nil_r.
        repeat split; try done; [lia|by left|]. by intros a e' [= <- _]. }
    set (r := Request_Header_Add r0 "User-Agent" userAgent).
    assert (cas2_request v s t w (mkWorld (w.(urls) ++ fresh) w.(calls)) r)
      as Hbuilt by (exists u, r0; done).
    rewrite (ValidateTicket_run _ _ _ _ _ _ Hbuilt).
    destruct (client v _ _) as [resp|e].
    2:{ exists fresh, [CallDo r]. repeat split; try done; [lia| |].
        - right; left. by exists r.
        - by intros a e' [= <- _]. }
    destruct (StatusCode resp =? StatusNotFound).
    + destruct (validateTicketCas1_shape v s t
                  (after_Do (mkWorld (w.(urls) ++ fresh) w.(calls)) r))
        as (fresh1 & new1 & Hw1 & Hlen1 & Hnew1 & Hres1).
      exists (fresh ++ fresh1), (CallDo r :: new1).
      rewrite Hw1. cbn [after_Do urls calls]. rewrite <- !app_assoc.
      repeat split; try done.
      * rewrite List.length_app. lia.
      * destruct Hnew1 as [->|[r1 ->]].
        -- right; left. by exists r.
        -- right; right; right. by exists r, r1.
    + destruct (Body resp) as [body [e|]].
      { exists fresh, [CallDo r]. repeat split; try done; [lia| |].
        - right; left. by exists r.
        - by intros a e' [= <- _]. }
      destruct (negb _).
      { exists fresh, [CallDo r]. repeat split; try done; [lia| |].
        - right; left. by exists r.
        - by intros a e' [= <- _]. }
      exists fresh, [CallDo r; CallParseServiceResponse body].
      cbn zeta.
      destruct (ParseServiceResponse body) as [success [e|]];
        repeat split; try done; try lia;
        try (right; right; left; by exists r, body).
      by intros a e' [= <- _].
  - exists fresh, []. unfold ValidateTicket. rewrite bind_run, Hurl.
    rewrite app_nil_r. repeat split; try done; [lia|by left].
Qed.

(** X10. A validation never returns an authentication response together
    with an error: whenever [ValidateTicket] or [validateTicketCas1]
    returns a non-nil error, the response it returns is nil, also when
    [ParseServiceResponse] returned both. *)
Theorem validation_error_has_no_response v s t w
    (a : option AuthenticationResponse) (e : error) :
  (ValidateTicket v s t w).1 = Returns (a, Some e)
  ∨ (validateTicketCas1 v s t w).1 = Returns (a, Some e) →
  a = None.
Proof.
  intros [Hres|Hres].
  - destruct (ValidateTicket_shape v s t w) as (_ & _ & _ & _ & _ & Hnone).
    eapply Hnone, Hres.
  - destruct (validateTicketCas1_shape v s t w) as (_ & _ & _ & _ & _ & Hnone).
    eapply Hnone, Hres.
Qed.

(** X11. In every run of [ValidateTicket] the structs of the store stay
    in place and unchanged, at most two structs are added, and the calls
    made are none, the CAS2 request alone, the CAS2 request followed by one
    call of [ParseServiceResponse], or the CAS2 request followed by the
    CAS1 request: the parser is called at most once and never in a run
    that falls back. *)
Theorem ValidateTicket_calls_and_store v s t w :
  ∃ fresh new,
    (ValidateTicket v s t w).2
    = mkWorld (w.(urls) ++ fresh) (w.(calls) ++ new)
    ∧ (length fresh ≤ 2)%nat
    ∧ (new = []
       ∨ (∃ r, new = [CallDo r])
       ∨ (∃ r body, new = [CallDo r; CallParseServiceResponse body])
       ∨ (∃ r r1, new = [CallDo r; CallDo r1])).
Proof.
  destruct (ValidateTicket_shape v s t w)
    as (fresh & new & Hw & Hlen & Hnew & _).
  by exists fresh, new.
Qed.

(** X12. Every request [ValidateTicket] sends, to the CAS2 endpoint or to
    the CAS1 endpoint, carries the user agent of the client as the last
    value of its [User-Agent] header. *)
Theorem requests_carry_user_agent v s t w :
  ∃ new,
    requests (ValidateTicket v s t w).2.(calls) = requests w.(calls) ++ new
    ∧ Forall (λ r, last (default [] (r.(ReqHeader)
                                     !! CanonicalMIMEHeaderKey "User-Agent"))
                   = Some "Golang CAS client gopkg.in/cas") new.
Proof.
  assert (∀ r0 : Request,
            last (default [] ((Request_Header_Add r0 "User-Agent" userAgent)
                                .(ReqHeader)
                              !! CanonicalMIMEHeaderKey "User-Agent"))
            = Some "Golang CAS client gopkg.in/cas") as Hagent.
  { intros r0. unfold Request_Header_Add, Header_Add, Values_Add.
    cbn [ReqHeader]. rewrite lookup_insert_eq. cbn [default].
    apply last_snoc. }
  destruct (ValidateTicket_requests v s t w)
    as [Hnone|[(w1 & r & Hb & Hone)
              |(w1 & r & resp & w2 & r1 & Hb & _ & _ & Hb1 & Htwo)]];
    cbn zeta in *.
  - exists []. rewrite app_nil_r. by split.
  - exists [r]. split; [done|].
    destruct Hb as (u & r0 & _ & _ & ->). repeat constructor. apply Hagent.
  - exists [r; r1]. split; [done|].
    destruct Hb as (u & r0 & _ & _ & ->).
    destruct Hb1 as (u1 & r01 & _ & _ & ->).
    repeat constructor; apply Hagent.
Qed.

(** X13. With the CAS base and the service URL in the store, the requests
    of a validation are built from those two structs and the ticket
    alone: the first from the [serviceValidate] endpoint URL, the second,
    if there is one, from the [validate] endpoint URL of the same base,
    service URL and ticket, unaffected by what the CAS2 attempt left in
    the store. *)
Theorem requests_are_built_from_inputs v s t w base service :
  deref w v.(casURL) = Some base →
  deref w s = Some service →
  ∃ new,
    requests (ValidateTicket v s t w).2.(calls) = requests w.(calls) ++ new
    ∧ Forall2
        (λ r endpoint,
           ∃ r0,
             http_NewRequest "GET" (endpoint_url endpoint base service t).1
             = Ok r0
             ∧ r = Request_Header_Add r0 "User-Agent"
                     "Golang CAS client gopkg.in/cas")
        new (take (length new) ["serviceValidate"; "validate"]).
Proof.
  intros Hbase Hservice.
  assert (∀ endpoint w0 u w1,
            deref w0 v.(casURL) = Some base →
            deref w0 s = Some service →
            validation_url endpoint v s t w0 = (Returns (u, None), w1) →
            u = (endpoint_url endpoint base service t).1
            ∧ deref w1 v.(casURL) = Some base
            ∧ deref w1 s = Some service) as Hbuilder.
  { intros endpoint w0 u w1 Hb Hs Hrun.
    rewrite (validation_url_run _ _ _ _ _ _ _ Hb Hs) in Hrun.
    unfold endpoint_url.
    destruct (url_Parse _) as [ref|e]; [|discriminate].
    injection Hrun as <- <-. repeat split; try done; by apply deref_grow. }
  destruct (ValidateTicket_requests v s t w)
    as [Hnone|[(w1 & r & Hb & Hone)
              |(w1 & r & resp & w2 & r1 & Hb & _ & _ & Hb1 & Htwo)]];
    cbn zeta in *.
  - exists []. rewrite app_nil_r. split; [done|constructor].
  - exists [r]. split; [done|].
    destruct Hb as (u & r0 & Hurl & Hreq & ->).
    rewrite ServiceValidateUrl_shape in Hurl.
    destruct (Hbuilder _ _ _ _ Hbase Hservice Hurl) as (-> & _ & _).
    repeat constructor. by exists r0.
  - exists [r; r1]. split; [done|].
    destruct Hb as (u & r0 & Hurl & Hreq & ->).
    rewrite ServiceValidateUrl_shape in Hurl.
    destruct (Hbuilder _ _ _ _ Hbase Hservice Hurl) as (-> & Hbase1 & Hservice1).
    destruct Hb1 as (u1 & r01 & Hurl1 & Hreq1 & ->).
    rewrite ValidateUrl_shape in Hurl1.
    destruct (Hbuilder _ (after_Do w1 _) _ _ Hbase1 Hservice1 Hurl1)
      as (-> & _ & _).
    repeat constructor; [by exists r0|by exists r01].
Qed.

(** X14. The outcome of the fallback is the outcome of the validation:
    when the CAS2 request is answered 404 and the CAS1 request is answered
    200, [ValidateTicket] returns [(nil, nil)] for the negative marker and
    a success for the user [user] for the positive marker followed by
    [user] and a newline. *)
Theorem fallback_outcome_is_returned
    v s t w w1 r resp w2 r1 resp1 (body : string) :
  cas2_request v s t w w1 r →
  answers v w1 r resp →
  resp.(StatusCode) = StatusNotFound →
  cas1_request v s t (after_Do w1 r) w2 r1 →
  answers v w2 r1 resp1 →
  resp1.(StatusCode) = StatusOK →
  resp1.(Body) = (body, None) →
  (body = "no" +:+ nl +:+ nl →
   (ValidateTicket v s t w).1 = Returns (None, None))
  ∧ (∀ user, body = "yes" +:+ nl +:+ user +:+ nl →
             (ValidateTicket v s t w).1
             = Returns (Some (AuthenticationResponse_User user), None)).
Proof.
  intros Hb Hans Hcode Hb1 Hans1 Hcode1 Hbody1.
  rewrite (ValidateTicket_run _ _ _ _ _ _ Hb).
  unfold answers in Hans, Hans1. rewrite Hans, Hcode. cbn [Z.eqb Pos.eqb].
  change (StatusNotFound =? StatusNotFound) with true. cbn iota.
  rewrite (validateTicketCas1_run _ _ _ _ _ _ Hb1), Hans1, Hbody1, Hcode1.
  split.
  - intros ->. reflexivity.
  - intros user ->.
    pose proof (slice_yes user) as Hslice. cbn zeta in Hslice.
    rewrite Hslice. reflexivity.
Qed.

End validator_shape.

Lemma cas1_other_status_witness :
  (validateTicketCas1 (H := Std.library) (H0 := Std.package)
     (Scenario.validator [Scenario.reply 500 ("no" +:+ nl +:+ nl)])
     Scenario.servicePtr "ST-1" Scenario.world0).1
  = Returns (None, Some (errorString
                           ("cas: validate ticket: " +:+ "no" +:+ nl +:+ nl)))
  ∧ length (validateTicketCas1 (H := Std.library) (H0 := Std.package)
              (Scenario.validator [Scenario.reply 500 ("no" +:+ nl +:+ nl)])
              Scenario.servicePtr "ST-1" Scenario.world0).2.(calls) = 1%nat.
Proof.
  edestruct (cas1_other_status_is_protocol_error
               (H := Std.library) (H0 := Std.package)
               (Scenario.validator [Scenario.reply 500 ("no" +:+ nl +:+ nl)])
               Scenario.servicePtr "ST-1" Scenario.world0) as [Hres Hlog].
  - eexists _, _. split; [vm_compute; reflexivity|].
    split; [vm_compute; reflexivity|reflexivity].
  - vm_compute. reflexivity.
  - vm_compute. discriminate.
  - reflexivity.
  - split; [exact Hres|]. rewrite Hlog. reflexivity.
Defined.

Lemma cas2_failed_exchange_witness :
  (ValidateTicket (H := Std.library) (H0 := Std.package)
     (Scenario.validator [Cases.truncated 200]) Scenario.servicePtr "ST-1"
     Scenario.world0).1
  = Returns (None, Some (errorString "unexpected EOF"))
  ∧ length (ValidateTicket (H := Std.library) (H0 := Std.package)
              (Scenario.validator [Cases.truncated 200])
              Scenario.servicePtr "ST-1" Scenario.world0).2.(calls) = 1%nat.
Proof.
  edestruct (cas2_failed_exchange_is_returned
               (H := Std.library) (H0 := Std.package)
               (Scenario.validator [Cases.truncated 200])
               Scenario.servicePtr "ST-1" Scenario.world0)
    with (e := errorString "unexpected EOF") as [Hres Hlog].
  - eexists _, _. split; [vm_compute; reflexivity|].
    split; [vm_compute; reflexivity|reflexivity].
  - right. eexists _, _. split; [vm_compute; reflexivity|].
    split; [vm_compute; discriminate|reflexivity].
  - split; [exact Hres|]. rewrite Hlog. reflexivity.
Defined.

Lemma unparsable_endpoint_witness :
  let v := Scenario.validator [Scenario.reply 200 Cases.bobDocument] in
  let e := errorString "invalid URL escape" in
  ServiceValidateUrl (H := Std.library) (H0 := Std.package) v
    Scenario.servicePtr "ST-1" Cases.brokenWorld
  = (Returns (EmptyString, Some e), Cases.brokenWorld)
  ∧ ValidateTicket (H := Std.library) (H0 := Std.package) v
      Scenario.servicePtr "ST-1" Cases.brokenWorld
    = (Returns (None, Some e), Cases.brokenWorld).
Proof.
  cbn zeta.
  apply (proj1 (unparsable_endpoint_sends_nothing
                  (H := Std.library) (H0 := Std.package)
                  (Scenario.validator [Scenario.reply 200 Cases.bobDocument])
                  Scenario.servicePtr "ST-1" Cases.brokenWorld
                  Cases.brokenBase eq_refl)).
  vm_compute. reflexivity.
Defined.

Lemma cas2_ok_witness :
  (ValidateTicket (H := Std.library) (H0 := Std.package)
     (Scenario.validator [Scenario.reply 200 Cases.bobDocument])
     Scenario.servicePtr "ST-1" Scenario.world0).1
  = Returns (Some Cases.bob, None)
  ∧ length (ValidateTicket (H := Std.library) (H0 := Std.package)
              (Scenario.validator [Scenario.reply 200 Cases.bobDocument])
              Scenario.servicePtr "ST-1" Scenario.world0).2.(calls) = 2%nat.
Proof.
  edestruct (cas2_ok_is_parsed
               (H := Std.library) (H0 := Std.package)
               (Scenario.validator [Scenario.reply 200 Cases.bobDocument])
               Scenario.servicePtr "ST-1" Scenario.world0) as [Hres Hlog].
  - eexists _, _. split; [vm_compute; reflexivity|].
    split; [vm_compute; reflexivity|reflexivity].
  - vm_compute. reflexivity.
  - reflexivity.
  - reflexivity.
  - split; [rewrite Hres; vm_compute; reflexivity|].
    rewrite Hlog. reflexivity.
Defined.

Lemma validation_error_witness :
  ∃ a e,
    (ValidateTicket (H := Std.library) (H0 := Std.package)
       (Scenario.validator [Scenario.reply 500 "boom"]) Scenario.servicePtr
       "ST-1" Scenario.world0).1 = Returns (a, Some e)
    ∧ a = None.
Proof.
  eexists _, (errorString "cas: validate ticket: boom").
  assert (∀ a,
            (ValidateTicket (H := Std.library) (H0 := Std.package)
               (Scenario.validator [Scenario.reply 500 "boom"])
               Scenario.servicePtr "ST-1" Scenario.world0).1
            = Returns (a, Some (errorString "cas: validate ticket: boom")) →
            a = None) as Hnone.
  { intros a Hres.
    apply (validation_error_has_no_response
             (H := Std.library) (H0 := Std.package)
             (Scenario.validator [Scenario.reply 500 "boom"])
             Scenario.servicePtr "ST-1" Scenario.world0 a
             (errorString "cas: validate ticket: boom")).
    left. exact Hres. }
  split; [vm_compute; reflexivity|]. apply Hnone. vm_compute. reflexivity.
Defined.

Lemma requests_built_witness :
  ∃ new,
    requests (ValidateTicket (H := Std.library) (H0 := Std.package)
                (Scenario.validator
                   [Scenario.reply 404 "not found";
                    Scenario.reply 200 ("yes" +:+ nl +:+ "alice" +:+ nl)])
                Scenario.servicePtr "ST-1" Scenario.world0).2.(calls)
    = [] ++ new
    ∧ Forall2
        (λ r endpoint,
           ∃ r0,
             Std.NewRequest "GET"
               (endpoint_url (H := Std.library) (H0 := Std.package)
                  endpoint Scenario.casBase Scenario.service "ST-1").1
             = Ok r0
             ∧ r = Request_Header_Add (H := Std.library) r0 "User-Agent"
                     "Golang CAS client gopkg.in/cas")
        new (take (length new) ["serviceValidate"; "validate"]).
Proof.
  apply (requests_are_built_from_inputs
           (H := Std.library) (H0 := Std.package)
           (Scenario.validator
              [Scenario.reply 404 "not found";
               Scenario.reply 200 ("yes" +:+ nl +:+ "alice" +:+ nl)])
           Scenario.servicePtr "ST-1" Scenario.world0
           Scenario.casBase Scenario.service); reflexivity.
Defined.

Lemma fallback_outcome_witness :
  (ValidateTicket (H := Std.library) (H0 := Std.package)
     (Scenario.validator
        [Scenario.reply 404 "not found";
         Scenario.reply 200 ("yes" +:+ nl +:+ "alice" +:+ nl)])
     Scenario.servicePtr "ST-1" Scenario.world0).1
  = Returns (Some (AuthenticationResponse_User "alice"), None).
Proof.
  eapply (fallback_outcome_is_returned
            (H := Std.library) (H0 := Std.package)
            (Scenario.validator
               [Scenario.reply 404 "not found";
                Scenario.reply 200 ("yes" +:+ nl +:+ "alice" +:+ nl)])
            Scenario.servicePtr "ST-1" Scenario.world0).
  - eexists _, _. split; [vm_compute; reflexivity|].
    split; [vm_compute; reflexivity|reflexivity].
  - vm_compute. reflexivity.
  - reflexivity.
  - eexists _, _. split; [vm_compute; reflexivity|].
    split; [vm_compute; reflexivity|reflexivity].
  - vm_compute. reflexivity.
  - reflexivity.
  - reflexivity.
  - reflexivity.
Defined.

(** ** More about the URL builders and the constructor *)

Section builders_more.
Context `{Library} `{Package}.

(** X15. Both URL builders append to the query of the endpoint URL: with
    the joined path parsed and resolved against the CAS base into [u], the
    struct a builder allocates is [u] with a new [RawQuery], the encoding
    of a query [q] that has every other parameter of [u] as it was, the
    values [u] already had under [service] followed by the rendering of
    the service URL, and the values [u] already had under [ticket]
    followed by the ticket; the string returned is the rendering of that
    struct. *)
Theorem endpoint_parameters_are_kept v s t w base service build endpoint ref :
  deref w v.(casURL) = Some base →
  deref w s = Some service →
  (build, endpoint) ∈ [(ServiceValidateUrl, "serviceValidate");
                       (ValidateUrl, "validate")] →
  url_Parse (path_Join [base.(Path); endpoint]) = Ok ref →
  let u := URL_ResolveReference base ref in
  let old := url_ParseQuery u.(RawQuery) in
  ∃ q,
    build v s t w
    = (Returns (URL_String (set_RawQuery (Values_Encode q) u), None),
       mkWorld (w.(urls) ++ [set_RawQuery (Values_Encode q) u]) w.(calls))
    ∧ (∀ k, k ≠ "service" → k ≠ "ticket" → q !! k = old !! k)
    ∧ q !! "service"
      = Some (default [] (old !! "service") ++ [sanitisedURLString service])
    ∧ q !! "ticket" = Some (default [] (old !! "ticket") ++ [t]).
Proof.
  intros Hbase Hservice Hin Hparse u old.
  assert (build v s t w = validation_url endpoint v s t w) as ->.
  { apply elem_of_cons in Hin as [[= -> ->]|Hin]; [reflexivity|].
    apply elem_of_cons in Hin as [[= -> ->]|Hin]; [reflexivity|].
    by apply elem_of_nil in Hin. }
  rewrite (validation_url_run _ _ _ _ _ _ _ Hbase Hservice), Hparse.
  exists (endpoint_query u service t). split; [reflexivity|].
  unfold endpoint_query, Values_Add. fold old. repeat split.
  - intros k Hs Ht. by rewrite !lookup_insert_ne.
  - rewrite lookup_insert_ne by done. by rewrite lookup_insert_eq.
  - rewrite lookup_insert_eq. by rewrite lookup_insert_ne.
Qed.

(** X16. The builders keep no state between calls: with the CAS base and
    the service URL in the store, a builder called in the world another
    call of either builder has left returns what it returns in the
    original world. *)
Theorem url_builders_are_repeatable v s t w base service :
  deref w v.(casURL) = Some base →
  deref w s = Some service →
  let w2 := (ServiceValidateUrl v s t w).2 in
  let w1 := (ValidateUrl v s t w).2 in
  (ServiceValidateUrl v s t w2).1 = (ServiceValidateUrl v s t w).1
  ∧ (ValidateUrl v s t w2).1 = (ValidateUrl v s t w).1
  ∧ (ServiceValidateUrl v s t w1).1 = (ServiceValidateUrl v s t w).1
  ∧ (ValidateUrl v s t w1).1 = (ValidateUrl v s t w).1.
Proof.
  intros Hbase Hservice.
  assert (∀ first second,
            (validation_url second v s t
               (validation_url first v s t w).2).1
            = (validation_url second v s t w).1) as Hagain.
  { intros first second.
    rewrite (validation_url_run first _ _ _ _ _ _ Hbase Hservice).
    rewrite (validation_url_run second _ _ _ w _ _ Hbase Hservice).
    destruct (url_Parse (path_Join [base.(Path); first])) as [ref|e];
      cbn [snd].
    - set (u := endpoint_struct ref base service t).
      rewrite (validation_url_run second v s t
                 (mkWorld (w.(urls) ++ [u]) w.(calls)) base service
                 (deref_grow w _ _ [u] _ Hbase)
                 (deref_grow w _ _ [u] _ Hservice)).
      by destruct (url_Parse (path_Join [base.(Path); second])).
    - rewrite (validation_url_run second _ _ _ _ _ _ Hbase Hservice).
      by destruct (url_Parse (path_Join [base.(Path); second])). }
  cbn zeta. rewrite !ServiceValidateUrl_shape, !ValidateUrl_shape.
  repeat split; apply Hagain.
Qed.

(** X17. The URL builders panic on a nil pointer only: with the CAS base
    and the service URL in the store both return, a URL or a parse error;
    [NewServiceTicketValidator] accepts a nil CAS URL, and every method of
    the validator it returns then panics on [validator.casURL.Path], a nil
    pointer dereference, before anything is allocated or sent. *)
Theorem url_builders_panic_on_nil_only (cl : Client) (p : ptr) s t w :
  let v := NewServiceTicketValidator cl p in
  (∀ base service,
     deref w p = Some base →
     deref w s = Some service →
     ∃ res2 res1,
       (ServiceValidateUrl v s t w).1 = Returns res2
       ∧ (ValidateUrl v s t w).1 = Returns res1)
  ∧ (p = None →
     let nilpanic A : exec A :=
       Panics "runtime error: invalid memory address or nil pointer dereference" in
     ServiceValidateUrl v s t w = (nilpanic _, w)
     ∧ ValidateUrl v s t w = (nilpanic _, w)
     ∧ validateTicketCas1 v s t w = (nilpanic _, w)
     ∧ ValidateTicket v s t w = (nilpanic _, w)).
Proof.
  cbn zeta. split.
  - intros base service Hbase Hservice.
    rewrite ServiceValidateUrl_shape, ValidateUrl_shape.
    rewrite !(validation_url_run _ (NewServiceTicketValidator cl p) _ _ _ _ _
                Hbase Hservice).
    destruct (url_Parse (path_Join [base.(Path); "serviceValidate"]));
      destruct (url_Parse (path_Join [base.(Path); "validate"]));
      by eexists _, _.
  - intros ->. repeat split.
Qed.



End builders_more.

Lemma endpoint_parameters_witness :
  let u := mkURL "https" EmptyString None "cas.example.com" "/cas/validate"
                 EmptyString false false EmptyString EmptyString EmptyString in
  ∃ q,
    ValidateUrl (H := Std.library) (H0 := Std.package)
      (Scenario.validator []) Scenario.servicePtr "ST-1" Scenario.world0
    = (Returns (Std.String_ (set_RawQuery (Std.Encode q) u), None),
       mkWorld (Scenario.world0.(urls) ++ [set_RawQuery (Std.Encode q) u]) [])
    ∧ q !! "service" = Some ["https://app.example.com/"]
    ∧ q !! "ticket" = Some ["ST-1"].
Proof.
  cbn zeta.
  edestruct (endpoint_parameters_are_kept
               (H := Std.library) (H0 := Std.package)
               (Scenario.validator []) Scenario.servicePtr "ST-1"
               Scenario.world0 Scenario.casBase Scenario.service
               (@ValidateUrl Std.library Std.package) "validate")
    as (q & Hrun & _ & Hservice & Hticket).
  - reflexivity.
  - reflexivity.
  - apply elem_of_cons. right. apply elem_of_cons. by left.
  - vm_compute. reflexivity.
  - exists q. split; [|split].
    + exact Hrun.
    + rewrite Hservice. vm_compute. reflexivity.
    + rewrite Hticket. vm_compute. reflexivity.
Defined.

Lemma url_builders_repeat_witness :
  let v := Scenario.validator [] in
  let w2 := (ServiceValidateUrl (H := Std.library) (H0 := Std.package) v
               Scenario.servicePtr "ST-1" Scenario.world0).2 in
  (ValidateUrl (H := Std.library) (H0 := Std.package) v
     Scenario.servicePtr "ST-1" w2).1
  = (ValidateUrl (H := Std.library) (H0 := Std.package) v
       Scenario.servicePtr "ST-1" Scenario.world0).1.
Proof.
  cbn zeta.
  apply (url_builders_are_repeatable
           (H := Std.library) (H0 := Std.package)
           (Scenario.validator []) Scenario.servicePtr "ST-1" Scenario.world0
           Scenario.casBase Scenario.service eq_refl eq_refl).
Defined.

Lemma url_builders_panic_witness :
  (∃ res2 res1,
     (ServiceValidateUrl (H := Std.library) (H0 := Std.package)
        (NewServiceTicketValidator (Scenario.scripted []) Scenario.casPtr)
        Scenario.servicePtr "ST-1" Scenario.world0).1 = Returns res2
     ∧ (ValidateUrl (H := Std.library) (H0 := Std.package)
          (NewServiceTicketValidator (Scenario.scripted []) Scenario.casPtr)
          Scenario.servicePtr "ST-1" Scenario.world0).1 = Returns res1)
  ∧ ValidateTicket (H := Std.library) (H0 := Std.package)
      (NewServiceTicketValidator (Scenario.scripted []) None)
      Scenario.servicePtr "ST-1" Scenario.world0
    = (Panics "runtime error: invalid memory address or nil pointer dereference",
       Scenario.world0).
Proof.
  split.
  - apply (proj1 (url_builders_panic_on_nil_only
                    (H := Std.library) (H0 := Std.package)
                    (Scenario.scripted []) Scenario.casPtr
                    Scenario.servicePtr "ST-1" Scenario.world0)
                 Scenario.casBase Scenario.service eq_refl eq_refl).
  - apply (proj2 (url_builders_panic_on_nil_only
                    (H := Std.library) (H0 := Std.package)
                    (Scenario.scripted []) None
                    Scenario.servicePtr "ST-1" Scenario.world0) eq_refl).
Defined.

